(** * interprex-backend: order creation, payment verification and course grants

    A shallow embedding of [src/server.js].  The file holds two successive
    versions of the same Express server (lines 1-107 and lines 109-318);
    both are embedded, as [V1] and [V2].

    - [JS]       the JavaScript values a JSON request body and the upstream
                 services can hand to a handler, with the few operators the
                 handlers use on them (truthiness, [+] with a string,
                 property read, object spread, [===] with a string);
    - [Crypto]   HMAC-SHA256 with hexadecimal output, the computation behind
                 [crypto.createHmac("sha256", key).update(s).digest("hex")];
    - [Eff]      handlers as programs over the effects of the server: console
                 output, the clock, awaited calls to the payment gateway and
                 to the database, thrown exceptions and [try]/[catch];
    - [V1], [V2] the route handlers;
    - [Backend]  a reference model of the two upstream services;
    - [Spec]     the vocabulary of the specification;
    - [Scenario] a shop, a purchase and its payment confirmations;
    - [Startup]  the module-level code: environment, warnings, port;
    - [Flow]     the vocabulary of the request flow;
    - [Cases]    more requests and environments.

    What is taken from outside [server.js]:
    - [create_order] and [verify_payment] are the handlers on the object
      body-parser built from the JSON request, an absent field reading as
      [undefined]; [post_create_order] and [post_verify_payment] are the same
      handlers on any [req.body], [undefined] included;
    - the upstream clients and the clock answer as they please: every theorem
      about a handler holds for every [environment];
    - Number::toString of the runtime is a parameter, [Number_toString]. *)

From Stdlib Require Import ZArith List String Ascii Bool Lia.
From Stdlib Require Import Floats.SpecFloat.
From Stdlib Require DecimalString.
Import ListNotations.

Local Open Scope list_scope.
Local Open Scope string_scope.

Set Warnings "-register-all".

(* ------------------------------------------------------------------------- *)
(** ** JavaScript values *)

Module JS.

(** A value as [JSON.parse] builds it, plus [undefined].  Numbers are IEEE
    doubles.  A string stands for its UTF-8 encoding, one [ascii] per byte;
    an object is the list of its own properties in insertion order. *)
Inductive value : Type :=
| VUndefined
| VNull
| VBool (b : bool)
| VNum (x : spec_float)
| VStr (s : string)
| VArr (elems : list value)
| VObj (props : list (string * value)).

Definition object := list (string * value).

(** ToBoolean: [undefined], [null], [false], [+0], [-0], [NaN] and the empty
    string are falsy, every other value is truthy. *)
Definition truthy (v : value) : bool :=
  match v with
  | VUndefined | VNull => false
  | VBool b => b
  | VNum (S754_zero _) | VNum S754_nan => false
  | VNum _ => true
  | VStr s => negb (s =? "")
  | VArr _ | VObj _ => true
  end.

Definition nullish (v : value) : bool :=
  match v with
  | VUndefined | VNull => true
  | _ => false
  end.

(** The number [n], for a positive integer [n]. *)
Definition int (n : positive) : value := VNum (S754_finite false n 0).

(** [a || b], with [b] evaluated by the caller only when needed. *)
Definition or_else (a b : value) : value := if truthy a then a else b.

(** *** Own properties *)

Fixpoint lookup (k : string) (o : object) : option value :=
  match o with
  | [] => None
  | (k', v) :: rest => if k =? k' then Some v else lookup k rest
  end.

Definition has_key (k : string) (o : object) : bool :=
  match lookup k o with Some _ => true | None => false end.

(** Writing a property: an existing key keeps its place and takes the new
    value, a new key goes last. *)
Fixpoint set (k : string) (v : value) (o : object) : object :=
  match o with
  | [] => [(k, v)]
  | (k', v') :: rest =>
      if k =? k' then (k, v) :: rest else (k', v') :: set k v rest
  end.

Definition index_key (i : nat) : string :=
  DecimalString.NilEmpty.string_of_uint (Nat.to_uint i).

Fixpoint indexed {A : Type} (f : A -> value) (i : nat) (l : list A) : object :=
  match l with
  | [] => []
  | x :: rest => (index_key i, f x) :: indexed f (S i) rest
  end.

(** The own enumerable properties [{...v}] copies: those of an object, the
    indices of an array, the characters of a string (here one per byte, which
    is the JavaScript result on ASCII strings), nothing for the other
    primitives. *)
Definition own_props (v : value) : object :=
  match v with
  | VObj props => props
  | VArr elems => indexed (fun x => x) 0 elems
  | VStr s => indexed (fun c => VStr (String c "")) 0 (list_ascii_of_string s)
  | _ => []
  end.

(** [{...v}]: a fresh object, properties defined one after the other. *)
Definition spread (v : value) : object :=
  fold_left (fun acc kv => set (fst kv) (snd kv) acc) (own_props v) [].

(** A [TypeError] raised by the runtime, as the object the [catch] clause
    receives. *)
Definition TypeError (message : string) : value :=
  VObj [("name", VStr "TypeError"); ("message", VStr message)].

(** Property read [v.k].  Reading from [undefined] or [null] throws.  The
    handlers read only the names [notes], [course_slug], [user_id], [id],
    [code], [data] and [error] and the fields of the request body; on a
    string, number, boolean or array none of these is defined, so the read
    gives [undefined]. *)
Definition get (v : value) (k : string) : value + value :=
  match v with
  | VUndefined =>
      inr (TypeError ("Cannot read properties of undefined (reading '"
                      ++ k ++ "')"))
  | VNull =>
      inr (TypeError ("Cannot read properties of null (reading '"
                      ++ k ++ "')"))
  | VObj props =>
      inl (match lookup k props with Some x => x | None => VUndefined end)
  | _ => inl VUndefined
  end.

(** Destructuring [const { k } = o] of an object. *)
Definition field (o : object) (k : string) : value :=
  match lookup k o with Some x => x | None => VUndefined end.

(** Optional chaining [v?.k]. *)
Definition get_opt (v : value) (k : string) : value :=
  match v with
  | VObj props => field props k
  | _ => VUndefined
  end.

(** [v === s] for a string [s]. *)
Definition strict_eq_string (v : value) (s : string) : bool :=
  match v with
  | VStr s' => s' =? s
  | _ => false
  end.

(** The named fields [const { k, ... } = v] can read from a value that is
    neither [undefined] nor [null]: those of an object; on an array or a
    primitive none of the names the handlers read exists. *)
Definition fields (v : value) : object :=
  match v with
  | VObj props => props
  | _ => []
  end.

(** Destructuring [const { k, ... } = req.body], [k] being the first name of
    the pattern: it throws on [undefined] and on [null]. *)
Definition destructure (k : string) (v : value) : object + value :=
  match v with
  | VUndefined =>
      inr (TypeError ("Cannot destructure property '" ++ k
                      ++ "' of 'req.body' as it is undefined."))
  | VNull =>
      inr (TypeError ("Cannot destructure property '" ++ k
                      ++ "' of 'req.body' as it is null."))
  | _ => inl (fields v)
  end.

Section ToString.

(** Number::toString of the runtime (shortest round-trip decimal). *)
Variable Number_toString : spec_float -> string.

(** ToString, as [+] with a string operand and [Array.prototype.join] apply
    it.  An object prints as [[object Object]] through
    [Object.prototype.toString]; an own property named [toString] (never
    callable in parsed JSON) hides that method and the conversion throws:
    [None]. *)
Fixpoint to_string (v : value) : option string :=
  match v with
  | VUndefined => Some "undefined"
  | VNull => Some "null"
  | VBool true => Some "true"
  | VBool false => Some "false"
  | VNum x => Some (Number_toString x)
  | VStr s => Some s
  | VArr elems =>
      (fix join (l : list value) : option string :=
         match l with
         | [] => Some ""
         | x :: rest =>
             match (if nullish x then Some "" else to_string x) with
             | None => None
             | Some sx =>
                 match rest with
                 | [] => Some sx
                 | _ :: _ =>
                     match join rest with
                     | None => None
                     | Some sr => Some (sx ++ "," ++ sr)
                     end
                 end
             end
         end) elems
  | VObj props =>
      if has_key "toString" props then None else Some "[object Object]"
  end.

(** [a + s] and [s + a] for a string [s]: string concatenation after
    ToString of the other operand. *)
Definition concat (a b : value) : string + value :=
  match to_string a, to_string b with
  | Some sa, Some sb => inl (sa ++ sb)
  | _, _ => inr (TypeError "Cannot convert object to primitive value")
  end.

End ToString.

End JS.

(* ------------------------------------------------------------------------- *)
(** ** HMAC-SHA256 *)

(** [crypto.createHmac("sha256", key).update(s).digest("hex")] of Node.js:
    SHA-256 (FIPS 180-4) over bytes, HMAC (RFC 2104) on top of it, the
    32-byte tag printed as 64 lower-case hexadecimal digits.  Words are
    integers below [2^32], bytes integers below [256]. *)
Module Crypto.

Local Open Scope Z_scope.

Definition wrap (x : Z) : Z := x mod 2 ^ 32.

Definition rotr (n x : Z) : Z :=
  Z.lor (Z.shiftr x n) (wrap (Z.shiftl x (32 - n))).

Definition ch (x y z : Z) : Z :=
  Z.lxor (Z.land x y) (Z.land (Z.lxor x 0xffffffff) z).

Definition maj (x y z : Z) : Z :=
  Z.lxor (Z.lxor (Z.land x y) (Z.land x z)) (Z.land y z).

Definition Sigma0 (x : Z) : Z :=
  Z.lxor (Z.lxor (rotr 2 x) (rotr 13 x)) (rotr 22 x).
Definition Sigma1 (x : Z) : Z :=
  Z.lxor (Z.lxor (rotr 6 x) (rotr 11 x)) (rotr 25 x).
Definition sigma0 (x : Z) : Z :=
  Z.lxor (Z.lxor (rotr 7 x) (rotr 18 x)) (Z.shiftr x 3).
Definition sigma1 (x : Z) : Z :=
  Z.lxor (Z.lxor (rotr 17 x) (rotr 19 x)) (Z.shiftr x 10).

(** The constants of the standard are roots of the first primes: the first
    32 bits of the fractional part of the square roots of the first eight
    primes for the initial hash, of the cube roots of the first sixty-four
    primes for the rounds. *)
Definition is_prime (n : Z) : bool :=
  forallb (fun d => negb (n mod d =? 0))
    (map Z.of_nat (seq 2 (Z.to_nat n - 2))).

Definition primes : list Z :=
  Eval vm_compute in filter is_prime (map Z.of_nat (seq 2 310)).

(** The integer part of the [k]-th root of [n], for [n] below [2^(40k)]. *)
Definition root (k n : Z) : Z :=
  fold_left (fun r i =>
               let r' := r + 2 ^ Z.of_nat i in
               if r' ^ k <=? n then r' else r)
    (rev (seq 0 40)) 0.

Definition fraction_of_root (k p : Z) : Z :=
  wrap (root k (p * 2 ^ (32 * k))).

Definition initial_hash : list Z :=
  Eval vm_compute in map (fraction_of_root 2) (firstn 8 primes).

Definition round_constants : list Z :=
  Eval vm_compute in map (fraction_of_root 3) primes.

(** Padding: the bit [1], zeros up to 56 modulo 64 bytes, the bit length on
    eight bytes, most significant first. *)
Definition be_bytes (width : nat) (x : Z) : list Z :=
  map (fun i => Z.shiftr x (8 * Z.of_nat i) mod 256) (rev (seq 0 width)).

Definition pad (msg : list Z) : list Z :=
  let len := Z.of_nat (List.length msg) in
  (msg ++ 0x80 :: repeat 0 (Z.to_nat ((55 - len) mod 64))
       ++ be_bytes 8 (8 * len))%list.

Fixpoint be_words (bytes : list Z) : list Z :=
  match bytes with
  | b3 :: b2 :: b1 :: b0 :: rest =>
      (((b3 * 256 + b2) * 256 + b1) * 256 + b0) :: be_words rest
  | _ => []
  end.

(** Blocks of sixteen words; one unit of [fuel] per block, so the number of
    words is always enough. *)
Fixpoint blocks (fuel : nat) (words : list Z) : list (list Z) :=
  match fuel, words with
  | S fuel', _ :: _ => firstn 16 words :: blocks fuel' (skipn 16 words)
  | _, _ => []
  end.

(** One round.  [window] holds the sixteen schedule words from the current
    one on; the state is the list [a; b; c; d; e; f; g; h]. *)
Definition round (acc : list Z * list Z) (k : Z) : list Z * list Z :=
  let (state, window) := acc in
  let w := nth 0 window 0 in
  let next :=
    wrap (sigma1 (nth 14 window 0) + nth 9 window 0
          + sigma0 (nth 1 window 0) + w) in
  match state with
  | [a; b; c; d; e; f; g; h] =>
      let t1 := h + Sigma1 e + ch e f g + k + w in
      let t2 := Sigma0 a + maj a b c in
      ([wrap (t1 + t2); a; b; c; wrap (d + t1); e; f; g],
       (tl window ++ [next])%list)
  | _ => acc
  end.

Definition compress (hash block : list Z) : list Z :=
  let (state, _) := fold_left round round_constants (hash, block) in
  map (fun p => wrap (fst p + snd p)) (combine hash state).

Definition sha256 (msg : list Z) : list Z :=
  let padded := pad msg in
  let words := be_words padded in
  let hash := fold_left compress (blocks (List.length words) words) initial_hash in
  flat_map (be_bytes 4) hash.

Definition block_size : nat := 64.

Definition hmac_sha256 (key msg : list Z) : list Z :=
  let key0 := if (block_size <? List.length key)%nat then sha256 key else key in
  let key1 := (key0 ++ repeat 0 (block_size - List.length key0))%list in
  let inner := sha256 (map (Z.lxor 0x36) key1 ++ msg)%list in
  sha256 (map (Z.lxor 0x5c) key1 ++ inner)%list.

Definition bytes_of_string (s : string) : list Z :=
  map (fun c => Z.of_N (N_of_ascii c)) (list_ascii_of_string s).

Definition hex_digit (d : Z) : ascii :=
  ascii_of_N (Z.to_N (if d <? 10 then 48 + d else 87 + d)).

Fixpoint hex (bytes : list Z) : string :=
  match bytes with
  | [] => EmptyString
  | b :: rest => String (hex_digit (b / 16)) (String (hex_digit (b mod 16)) (hex rest))
  end.

Definition sha256_hex (s : string) : string :=
  hex (sha256 (bytes_of_string s)).

Definition hmac_sha256_hex (key data : string) : string :=
  hex (hmac_sha256 (bytes_of_string key) (bytes_of_string data)).

End Crypto.

(** The hash is compared by name before it is ever computed. *)
Strategy opaque [Crypto.hmac_sha256_hex].

(* ------------------------------------------------------------------------- *)
(** ** Effects of a request handler *)

Module Eff.

Import JS.

(** The awaited calls to the two upstream services. *)
Inductive call : Type :=
| OrdersCreate (options : value)
    (* razorpay.orders.create(options) *)
| OrdersFetch (order_id : value)
    (* razorpay.orders.fetch(order_id) *)
| CoursesBySlug (slug : value)
    (* supabase.from("courses").select("id, slug").eq("slug", slug).single() *)
| UserCoursesInsert (row : value)
    (* supabase.from("user_courses").insert(row) *).

(** How an awaited promise settles. *)
Inductive settled : Type :=
| Fulfilled (v : value)
| Rejected (reason : value).

Inductive stream : Type := Log | Error.

(** A handler body: it returns, throws, writes to the console, reads the
    clock, or awaits an upstream call and goes on with the way it settled. *)
Inductive prog (A : Type) : Type :=
| Ret (a : A)
| Throw (err : value)
| Console (s : stream) (args : list value) (k : prog A)
| DateNow (k : spec_float -> prog A)
| Await (c : call) (k : settled -> prog A).

Arguments Ret {A} a.
Arguments Throw {A} err.
Arguments Console {A} s args k.
Arguments DateNow {A} k.
Arguments Await {A} c k.

Fixpoint bind {A B : Type} (p : prog A) (f : A -> prog B) : prog B :=
  match p with
  | Ret a => f a
  | Throw err => Throw err
  | Console s args k => Console s args (bind k f)
  | DateNow k => DateNow (fun t => bind (k t) f)
  | Await c k => Await c (fun r => bind (k r) f)
  end.

(** [try { p } catch (err) { handler err }] *)
Fixpoint try_catch {A : Type} (p : prog A) (handler : value -> prog A) : prog A :=
  match p with
  | Ret a => Ret a
  | Throw err => handler err
  | Console s args k => Console s args (try_catch k handler)
  | DateNow k => DateNow (fun t => try_catch (k t) handler)
  | Await c k => Await c (fun r => try_catch (k r) handler)
  end.

Notation "x <- p ;; q" := (bind p (fun x => q))
  (at level 61, p at next level, right associativity).
Notation "p ;;; q" := (bind p (fun _ => q))
  (at level 61, right associativity).

(** [await promise]: the value of a fulfilled promise; a rejection is
    thrown. *)
Definition await (c : call) : prog value :=
  Await c (fun r => match r with
                    | Fulfilled v => Ret v
                    | Rejected reason => Throw reason
                    end).

Definition console_log (args : list value) : prog unit :=
  Console Log args (Ret tt).
Definition console_error (args : list value) : prog unit :=
  Console Error args (Ret tt).
Definition date_now : prog value :=
  DateNow (fun t => Ret (VNum t)).

(** An expression that yields a value or throws. *)
Definition eval {A : Type} (r : A + value) : prog A :=
  match r with
  | inl v => Ret v
  | inr err => Throw err
  end.

(** [crypto.createHmac("sha256", key).update(data).digest("hex")];
    [createHmac] throws on an [undefined] key. *)
Definition createHmac_sha256_hex (key : option string) (data : string)
  : prog string :=
  match key with
  | Some k => Ret (Crypto.hmac_sha256_hex k data)
  | None => Throw (TypeError "The key argument must be of type string")
  end.

(** *** Running a handler *)

(** What a run leaves behind, in order. *)
Inductive entry : Type :=
| Printed (s : stream) (args : list value)
| Clock (t : spec_float)
| Called (c : call) (r : settled).

(** The world outside the process: a state, the clock and the way each
    upstream call settles. *)
Record environment (W : Type) : Type := {
  now : W -> spec_float * W;
  upstream : call -> W -> settled * W
}.
Arguments now {W} e w.
Arguments upstream {W} e c w.

Inductive outcome (A : Type) : Type :=
| Returned (a : A)
| Uncaught (err : value).
Arguments Returned {A} a.
Arguments Uncaught {A} err.

Record run_result (W A : Type) : Type := {
  trace : list entry;
  result : outcome A;
  final : W
}.
Arguments trace {W A} r.
Arguments result {W A} r.
Arguments final {W A} r.

Definition logged {W A : Type} (e : entry) (r : run_result W A) : run_result W A :=
  {| trace := e :: trace r; result := result r; final := final r |}.

Fixpoint run {W A : Type} (E : environment W) (p : prog A) (w : W)
  : run_result W A :=
  match p with
  | Ret a => {| trace := []; result := Returned a; final := w |}
  | Throw err => {| trace := []; result := Uncaught err; final := w |}
  | Console s args k => logged (Printed s args) (run E k w)
  | DateNow k =>
      let (t, w') := now E w in logged (Clock t) (run E (k t) w')
  | Await c k =>
      let (r, w') := upstream E c w in logged (Called c r) (run E (k r) w')
  end.

(** The upstream calls of a trace, in order. *)
Fixpoint calls (tr : list entry) : list call :=
  match tr with
  | [] => []
  | Called c _ :: rest => c :: calls rest
  | _ :: rest => calls rest
  end.

Definition is_insert (c : call) : bool :=
  match c with UserCoursesInsert _ => true | _ => false end.
Definition is_lookup (c : call) : bool :=
  match c with CoursesBySlug _ => true | _ => false end.

(** *** HTTP responses *)

Record response : Type := { status : nat; body : value }.

(** [res.status(code).json(payload)] *)
Definition status_json (code : nat) (payload : value) : prog response :=
  Ret {| status := code; body := payload |}.

(** [res.json(payload)] *)
Definition json (payload : value) : prog response :=
  status_json 200 payload.

End Eff.

(* ------------------------------------------------------------------------- *)
(** ** First version of the server (lines 1-107) *)

Module V1.

Import JS Eff.

Section Server.

Variable Number_toString : spec_float -> string.

(** [process.env.RAZORPAY_KEY_SECRET]: a string, or [undefined] when the
    variable is not set (the server only warns about it, lines 15-17). *)
Variable KEY_SECRET : option string.

(** [POST /create-order], lines 31-53. *)
Definition create_order (req_body : object) : prog response :=
  try_catch
    (let amount := field req_body "amount" in
     let currency :=
       match field req_body "currency" with
       | VUndefined => VStr "INR"
       | c => c
       end in
     let receipt := field req_body "receipt" in
     let notes := field req_body "notes" in
     if negb (truthy amount) then
       status_json 400 (VObj [("error", VStr "Amount is required")])
     else
       receipt' <- (if truthy receipt then Ret receipt
                    else t <- date_now ;;
                         s <- eval (concat Number_toString
                                           (VStr "order_rcpt_") t) ;;
                         Ret (VStr s)) ;;
       let options :=
         VObj [("amount", amount);
               ("currency", currency);
               ("receipt", receipt');
               ("notes", or_else notes (VObj []))] in
       order <- await (OrdersCreate options) ;;
       order_id <- eval (get order "id") ;;
       console_log [VStr "Order created:"; order_id] ;;;
       json order)
    (fun err =>
       console_error [VStr "Create order error:"; err] ;;;
       status_json 500 (VObj [("error", VStr "Unable to create order")])).

(** [POST /verify-payment], lines 56-102. *)
Definition verify_payment (req_body : object) : prog response :=
  try_catch
    (let razorpay_order_id := field req_body "razorpay_order_id" in
     let razorpay_payment_id := field req_body "razorpay_payment_id" in
     let razorpay_signature := field req_body "razorpay_signature" in
     if negb (truthy razorpay_order_id)
        || negb (truthy razorpay_payment_id)
        || negb (truthy razorpay_signature)
     then
       status_json 400 (VObj [("success", VBool false);
                              ("message", VStr "Missing payment details")])
     else
       prefix <- eval (concat Number_toString razorpay_order_id (VStr "|")) ;;
       body <- eval (concat Number_toString (VStr prefix)
                            razorpay_payment_id) ;;
       expectedSignature <- createHmac_sha256_hex KEY_SECRET body ;;
       let isAuthentic :=
         strict_eq_string razorpay_signature expectedSignature in
       if negb isAuthentic then
         console_log [VStr "Invalid signature";
                      VObj [("expectedSignature", VStr expectedSignature);
                            ("razorpay_signature", razorpay_signature)]] ;;;
         status_json 400 (VObj [("success", VBool false);
                                ("message", VStr "Invalid signature")])
       else
         console_log [VStr "PAYMENT VERIFIED:";
                      VObj [("razorpay_order_id", razorpay_order_id);
                            ("razorpay_payment_id", razorpay_payment_id)]] ;;;
         json (VObj [("success", VBool true)]))
    (fun err =>
       console_error [VStr "Verify error:"; err] ;;;
       status_json 500 (VObj [("success", VBool false);
                              ("message", VStr "Server error verifying payment")])).

(** The two routes on [req.body] as express hands it over: the object the
    body parser built, or [undefined] when no body was parsed.  The
    destructuring is the first statement of the [try] block (lines 33 and
    58-62), so its exception goes to the [catch] clause of the handler. *)
Definition post_create_order (req_body : value) : prog response :=
  try_catch
    (parsed <- eval (destructure "amount" req_body) ;;
     create_order parsed)
    (fun err =>
       console_error [VStr "Create order error:"; err] ;;;
       status_json 500 (VObj [("error", VStr "Unable to create order")])).

Definition post_verify_payment (req_body : value) : prog response :=
  try_catch
    (parsed <- eval (destructure "razorpay_order_id" req_body) ;;
     verify_payment parsed)
    (fun err =>
       console_error [VStr "Verify error:"; err] ;;;
       status_json 500 (VObj [("success", VBool false);
                              ("message", VStr "Server error verifying payment")])).

End Server.

End V1.

(* ------------------------------------------------------------------------- *)
(** ** Second version of the server (lines 109-318) *)

Module V2.

Import JS Eff.

Section Server.

Variable Number_toString : spec_float -> string.
Variable KEY_SECRET : option string.

(** [POST /create-order], lines 154-203. *)
Definition create_order (req_body : object) : prog response :=
  try_catch
    (let amount := field req_body "amount" in
     let currency :=
       match field req_body "currency" with
       | VUndefined => VStr "INR"
       | c => c
       end in
     let receipt := field req_body "receipt" in
     let notes := field req_body "notes" in
     let course_slug := field req_body "course_slug" in
     let user_id := field req_body "user_id" in
     console_log [VStr "CREATE ORDER BODY:";
                  VObj [("amount", amount);
                        ("course_slug", course_slug);
                        ("user_id", user_id)]] ;;;
     if negb (truthy amount) || negb (truthy course_slug)
        || negb (truthy user_id)
     then
       status_json 400
         (VObj [("error", VStr "Amount, course_slug and user_id are required")])
     else
       receipt' <- (if truthy receipt then Ret receipt
                    else t <- date_now ;;
                         s <- eval (concat Number_toString
                                           (VStr "order_rcpt_") t) ;;
                         Ret (VStr s)) ;;
       let options :=
         VObj [("amount", amount);
               ("currency", currency);
               ("receipt", receipt');
               ("notes", VObj (set "user_id" user_id
                                 (set "course_slug" course_slug
                                    (spread notes))))] in
       order <- await (OrdersCreate options) ;;
       order_id <- eval (get order "id") ;;
       console_log [VStr "Order created:"; order_id;
                    VStr "user:"; user_id;
                    VStr "course:"; course_slug] ;;;
       json order)
    (fun err =>
       console_error [VStr "Create order error:"; err] ;;;
       status_json 500 (VObj [("error", VStr "Unable to create order")])).

(** [POST /verify-payment], lines 212-313. *)
Definition verify_payment (req_body : object) : prog response :=
  try_catch
    (let razorpay_order_id := field req_body "razorpay_order_id" in
     let razorpay_payment_id := field req_body "razorpay_payment_id" in
     let razorpay_signature := field req_body "razorpay_signature" in
     if negb (truthy razorpay_order_id)
        || negb (truthy razorpay_payment_id)
        || negb (truthy razorpay_signature)
     then
       status_json 400 (VObj [("success", VBool false);
                              ("message", VStr "Missing payment details")])
     else
       (* 1) Verify signature *)
       prefix <- eval (concat Number_toString razorpay_order_id (VStr "|")) ;;
       body <- eval (concat Number_toString (VStr prefix)
                            razorpay_payment_id) ;;
       expectedSignature <- createHmac_sha256_hex KEY_SECRET body ;;
       if negb (strict_eq_string razorpay_signature expectedSignature) then
         console_log [VStr "Invalid signature";
                      VObj [("expectedSignature", VStr expectedSignature);
                            ("razorpay_signature", razorpay_signature)]] ;;;
         status_json 400 (VObj [("success", VBool false);
                                ("message", VStr "Invalid signature")])
       else
         console_log [VStr "PAYMENT VERIFIED:";
                      VObj [("razorpay_order_id", razorpay_order_id);
                            ("razorpay_payment_id", razorpay_payment_id)]] ;;;
         (* 2) Fetch order from Razorpay to get notes *)
         order <- await (OrdersFetch razorpay_order_id) ;;
         notes <- eval (get order "notes") ;;
         let course_slug := get_opt notes "course_slug" in
         let user_id := get_opt notes "user_id" in
         console_log [VStr "ORDER NOTES:";
                      VObj [("notes", notes);
                            ("course_slug", course_slug);
                            ("user_id", user_id)]] ;;;
         if negb (truthy course_slug) || negb (truthy user_id) then
           console_error
             [VStr "Missing course_slug or user_id in order notes"] ;;;
           status_json 500 (VObj [("success", VBool false);
                                  ("message", VStr "Missing metadata")])
         else
           (* 3) Get course_id from slug *)
           found <- await (CoursesBySlug course_slug) ;;
           course <- eval (get found "data") ;;
           courseError <- eval (get found "error") ;;
           console_log [VStr "COURSE LOOKUP RESULT:";
                        VObj [("course_slug", course_slug);
                              ("course", course);
                              ("courseError", courseError)]] ;;;
           if truthy courseError || negb (truthy course) then
             console_error [VStr "Course not found:"; courseError] ;;;
             status_json 500 (VObj [("success", VBool false);
                                    ("message", VStr "Course not found");
                                    ("slug_received", course_slug)])
           else
             (* 4) Insert into user_courses (grant access) *)
             course_id <- eval (get course "id") ;;
             inserted <- await (UserCoursesInsert
                                  (VObj [("user_id", user_id);
                                         ("course_id", course_id)])) ;;
             ucError <- eval (get inserted "error") ;;
             (* 23505 = unique violation (user already has course) *)
             failed <- (if truthy ucError then
                          code <- eval (get ucError "code") ;;
                          Ret (negb (strict_eq_string code "23505"))
                        else Ret false) ;;
             if failed : bool then
               console_error [VStr "Error inserting user_courses:"; ucError] ;;;
               status_json 500 (VObj [("success", VBool false);
                                      ("message", VStr "Could not grant access")])
             else
               console_log [VStr "Course access granted:";
                            VObj [("user_id", user_id);
                                  ("course_id", course_id)]] ;;;
               json (VObj [("success", VBool true)]))
    (fun err =>
       console_error [VStr "Verify error:"; err] ;;;
       status_json 500 (VObj [("success", VBool false);
                              ("message", VStr "Server error verifying payment")])).

(** The two routes on [req.body] as express hands it over: the object the
    body parser built, or [undefined] when no body was parsed.  The
    destructuring is the first statement of the [try] block (lines
    156-163 and 214-218), so its exception goes to the [catch] clause of the handler. *)
Definition post_create_order (req_body : value) : prog response :=
  try_catch
    (parsed <- eval (destructure "amount" req_body) ;;
     create_order parsed)
    (fun err =>
       console_error [VStr "Create order error:"; err] ;;;
       status_json 500 (VObj [("error", VStr "Unable to create order")])).

Definition post_verify_payment (req_body : value) : prog response :=
  try_catch
    (parsed <- eval (destructure "razorpay_order_id" req_body) ;;
     verify_payment parsed)
    (fun err =>
       console_error [VStr "Verify error:"; err] ;;;
       status_json 500 (VObj [("success", VBool false);
                              ("message", VStr "Server error verifying payment")])).

End Server.

End V2.

(* ------------------------------------------------------------------------- *)
(** ** A reference model of the upstream services *)

Module Backend.

Import JS Eff.

(** Structural equality of values, the comparison the reference store uses
    on identifiers. *)
Definition float_eqb (x y : spec_float) : bool :=
  match x, y with
  | S754_zero s, S754_zero s' => Bool.eqb s s'
  | S754_infinity s, S754_infinity s' => Bool.eqb s s'
  | S754_nan, S754_nan => true
  | S754_finite s m e, S754_finite s' m' e' =>
      Bool.eqb s s' && Pos.eqb m m' && Z.eqb e e'
  | _, _ => false
  end.

Fixpoint value_eqb (a b : value) : bool :=
  match a, b with
  | VUndefined, VUndefined => true
  | VNull, VNull => true
  | VBool x, VBool y => Bool.eqb x y
  | VNum x, VNum y => float_eqb x y
  | VStr x, VStr y => x =? y
  | VArr xs, VArr ys =>
      (fix all2 (xs ys : list value) : bool :=
         match xs, ys with
         | [], [] => true
         | x :: xs', y :: ys' => value_eqb x y && all2 xs' ys'
         | _, _ => false
         end) xs ys
  | VObj ps, VObj qs =>
      (fix all2 (ps qs : list (string * value)) : bool :=
         match ps, qs with
         | [], [] => true
         | (k, x) :: ps', (k', y) :: qs' =>
             (k =? k') && value_eqb x y && all2 ps' qs'
         | _, _ => false
         end) ps qs
  | _, _ => false
  end.

(** Modelled from the spec: the payment gateway and the persistent store are
    external services and not part of the repository.  The gateway keeps the
    orders it created and hands them back by id; the store holds the course
    rows [{id, slug}] and the grant rows, a grant being a unique
    [(user_id, course_id)] pair whose second insert is refused with the
    unique-violation code [23505]. *)
Record world : Type := {
  time : positive;                       (* milliseconds since the epoch *)
  orders : list (string * value);        (* gateway orders, by id *)
  courses : list value;                  (* rows of table courses *)
  user_courses : list (value * value)    (* rows of table user_courses *)
}.

Definition tick (w : world) : spec_float * world :=
  (S754_finite false (time w) 0,
   {| time := Pos.succ (time w); orders := orders w;
      courses := courses w; user_courses := user_courses w |}).

Definition order_name (n : nat) : string :=
  "order_" ++ index_key n.

Definition same_grant (user_id course_id : value) (row : value * value) : bool :=
  value_eqb (fst row) user_id && value_eqb (snd row) course_id.

(** The number of grant rows for a user and a course. *)
Definition grants (user_id course_id : value) (w : world) : nat :=
  List.length (filter (same_grant user_id course_id) (user_courses w)).

Definition has_slug (slug : value) (row : value) : bool :=
  value_eqb (get_opt row "slug") slug.

Definition serve (c : call) (w : world) : settled * world :=
  match c with
  | OrdersCreate options =>
      let id := order_name (S (List.length (orders w))) in
      let order :=
        VObj (("id", VStr id) :: ("status", VStr "created")
                :: own_props options) in
      (Fulfilled order,
       {| time := time w; orders := (orders w ++ [(id, order)])%list;
          courses := courses w; user_courses := user_courses w |})
  | OrdersFetch order_id =>
      match order_id with
      | VStr id =>
          match lookup id (orders w) with
          | Some order => (Fulfilled order, w)
          | None =>
              (Rejected (VObj [("error",
                                VObj [("code", VStr "BAD_REQUEST_ERROR")])]),
               w)
          end
      | _ =>
          (Rejected (VObj [("error",
                            VObj [("code", VStr "BAD_REQUEST_ERROR")])]),
           w)
      end
  | CoursesBySlug slug =>
      match filter (has_slug slug) (courses w) with
      | [row] => (Fulfilled (VObj [("data", row); ("error", VNull)]), w)
      | _ =>
          (Fulfilled (VObj [("data", VNull);
                            ("error", VObj [("code", VStr "PGRST116")])]),
           w)
      end
  | UserCoursesInsert row =>
      let user_id := get_opt row "user_id" in
      let course_id := get_opt row "course_id" in
      if existsb (same_grant user_id course_id) (user_courses w) then
        (Fulfilled (VObj [("data", VNull);
                          ("error", VObj [("code", VStr "23505")])]),
         w)
      else
        (Fulfilled (VObj [("data", VNull); ("error", VNull)]),
         {| time := time w; orders := orders w; courses := courses w;
            user_courses :=
              (user_courses w ++ [(user_id, course_id)])%list |})
  end.

Definition services : environment world :=
  {| now := tick; upstream := serve |}.

(** Number::toString on the numbers the reference clock produces: integers
    print as their decimal digits. *)
Definition Number_toString (x : spec_float) : string :=
  match x with
  | S754_zero _ => "0"
  | S754_nan => "NaN"
  | S754_infinity s => if s then "-Infinity" else "Infinity"
  | S754_finite s m e =>
      (if s then "-" else "")
        ++ DecimalString.NilEmpty.string_of_uint
             (N.to_uint (Z.to_N (Z.pos m * 2 ^ e)))
  end.

End Backend.

(* ------------------------------------------------------------------------- *)
(** ** Vocabulary of the specification *)

Module Spec.

Import JS Eff.

(** The responses of the wire contract. *)
Definition failure (code : nat) (message : string) : response :=
  {| status := code;
     body := VObj [("success", VBool false); ("message", VStr message)] |}.

Definition success : response :=
  {| status := 200; body := VObj [("success", VBool true)] |}.

Definition error_only (code : nat) (message : string) : response :=
  {| status := code; body := VObj [("error", VStr message)] |}.

(** A body of the shape [{success: false, message}]. *)
Definition failure_shape (payload : value) : Prop :=
  exists message : string,
    payload = VObj [("success", VBool false); ("message", VStr message)].

(** The message signed by the gateway: [order_id + "|" + payment_id]. *)
Definition signed_data (Number_toString : spec_float -> string)
  (order_id payment_id : value) : option string :=
  match to_string Number_toString order_id,
        to_string Number_toString payment_id with
  | Some o, Some p => Some (o ++ "|" ++ p)
  | _, _ => None
  end.

(** The handler's own mark of an accepted confirmation: the console line
    [PAYMENT VERIFIED:]. *)
Definition verified_line (e : entry) : bool :=
  match e with
  | Printed Log (VStr "PAYMENT VERIFIED:" :: _) => true
  | _ => false
  end.

Definition accepted (tr : list entry) : bool := existsb verified_line tr.

(** A field that is absent from the request body. *)
Definition absent (o : object) (k : string) : Prop := lookup k o = None.

(** The value of a field that is missing, or the empty string. *)
Definition missing_or_empty (v : value) : Prop :=
  v = VUndefined \/ v = VStr "".

(** The number zero, of either sign. *)
Definition zero (v : value) : Prop :=
  exists sign : bool, v = VNum (S754_zero sign).

(** The request body without the field [k]. *)
Fixpoint remove (k : string) (o : object) : object :=
  match o with
  | [] => []
  | (k', v) :: rest =>
      if k =? k' then remove k rest else (k', v) :: remove k rest
  end.

(** The course and the user recorded in an order's notes,
    [order.notes?.course_slug] and [order.notes?.user_id]; [None] when
    reading [order.notes] throws. *)
Definition metadata (order : value) : option (value * value) :=
  match get order "notes" with
  | inl notes => Some (get_opt notes "course_slug", get_opt notes "user_id")
  | inr _ => None
  end.

Definition metadata_complete (order : value) : bool :=
  match metadata order with
  | Some (course_slug, user_id) => truthy course_slug && truthy user_id
  | None => false
  end.

End Spec.

(* ------------------------------------------------------------------------- *)
(** ** A shop, a purchase and its confirmations *)

Module Scenario.

Import JS Eff Backend.

Definition secret : string := "rzp_test_secret".

Definition intro_ts : value :=
  VObj [("id", int 7); ("slug", VStr "intro-ts")].

Definition paid_order (id : string) (notes : object) : string * value :=
  (id, VObj [("id", VStr id); ("status", VStr "created");
             ("amount", int 50000); ("currency", VStr "INR");
             ("receipt", VStr "rcpt_1"); ("notes", VObj notes)]).

(** One course; three orders at the gateway: one created through
    [/create-order], one without notes, one for a slug no course has. *)
Definition shop : world :=
  {| time := 1700000000000;
     orders :=
       [ paid_order "order_1"
           [("course_slug", VStr "intro-ts"); ("user_id", VStr "u123")];
         paid_order "order_2" [];
         paid_order "order_3"
           [("course_slug", VStr "ghost"); ("user_id", VStr "u123")] ];
     courses := [intro_ts];
     user_courses := [] |}.

Definition empty_shop : world :=
  {| time := 1700000000000; orders := []; courses := [intro_ts];
     user_courses := [] |}.

Definition purchase : object :=
  [("amount", int 50000); ("receipt", VStr "rcpt_1");
   ("notes", VObj [("course_slug", VStr "free-course");
                   ("user_id", VStr "admin")]);
   ("course_slug", VStr "intro-ts"); ("user_id", VStr "u123")].

Definition confirmation (order_id signature : string) : object :=
  [("razorpay_order_id", VStr order_id);
   ("razorpay_payment_id", VStr "pay_abc");
   ("razorpay_signature", VStr signature)].

Definition signature_of (order_id : string) : string :=
  Crypto.hmac_sha256_hex secret (order_id ++ "|pay_abc").

Definition genuine (order_id : string) : object :=
  confirmation order_id (signature_of order_id).

Definition forged : object :=
  confirmation "order_1"
    "0000000000000000000000000000000000000000000000000000000000000000".

(** The same services with a store that refuses every insert (Postgres
    [42501], insufficient privilege), and with a store that cannot be
    reached. *)
Definition read_only : environment world :=
  {| now := tick;
     upstream c w :=
       match c with
       | UserCoursesInsert _ =>
           (Fulfilled (VObj [("data", VNull);
                             ("error", VObj [("code", VStr "42501")])]),
            w)
       | _ => serve c w
       end |}.

Definition unreachable : environment world :=
  {| now := tick;
     upstream c w :=
       match c with
       | UserCoursesInsert _ =>
           (Rejected (VObj [("message", VStr "fetch failed")]), w)
       | _ => serve c w
       end |}.

Definition KEY_SECRET : option string := Some secret.

Definition create_order_v2 (req_body : object) (w : world) :=
  run services (V2.create_order Number_toString req_body) w.

Definition verify_payment_v1 (req_body : object) (w : world) :=
  run services (V1.verify_payment Number_toString KEY_SECRET req_body) w.

Definition verify_payment_v2 (req_body : object) (w : world) :=
  run services (V2.verify_payment Number_toString KEY_SECRET req_body) w.

End Scenario.

(* ------------------------------------------------------------------------- *)
(** ** Start of the process *)

(** The module-level code around the handlers: reading the environment,
    the warnings about missing variables (lines 15-17 and 127-132) and the
    port (lines 104 and 315). *)
Module Startup.

Import JS.

(** [process.env]: each variable is a string or is not set. *)
Record variables : Type := {
  RAZORPAY_KEY_ID : option string;
  RAZORPAY_KEY_SECRET : option string;
  SUPABASE_URL : option string;
  SUPABASE_SERVICE_ROLE_KEY : option string;
  PORT : option string
}.

(** [process.env.NAME] as a value. *)
Definition read (x : option string) : value :=
  match x with
  | Some s => VStr s
  | None => VUndefined
  end.

Definition razorpay_warning : string :=
  "⚠️ RAZORPAY_KEY_ID or RAZORPAY_KEY_SECRET is missing".
Definition supabase_warning : string :=
  "⚠️ SUPABASE_URL or SUPABASE_SERVICE_ROLE_KEY is missing".

(** What [console.warn] prints while the module loads, first version. *)
Definition warnings_v1 (env : variables) : list string :=
  if negb (truthy (read (RAZORPAY_KEY_ID env)))
     || negb (truthy (read (RAZORPAY_KEY_SECRET env)))
  then [razorpay_warning] else [].

(** The same for the second version. *)
Definition warnings_v2 (env : variables) : list string :=
  ((if negb (truthy (read (RAZORPAY_KEY_ID env)))
       || negb (truthy (read (RAZORPAY_KEY_SECRET env)))
    then [razorpay_warning] else [])
   ++ (if negb (truthy (read (SUPABASE_URL env)))
          || negb (truthy (read (SUPABASE_SERVICE_ROLE_KEY env)))
       then [supabase_warning] else []))%list.

(** [const KEY_SECRET = process.env.RAZORPAY_KEY_SECRET] *)
Definition KEY_SECRET (env : variables) : option string :=
  RAZORPAY_KEY_SECRET env.

(** [const PORT = process.env.PORT || 5000] *)
Definition port (env : variables) : value :=
  or_else (read (PORT env)) (int 5000).

End Startup.

(* ------------------------------------------------------------------------- *)
(** ** Vocabulary of the request flow *)

Module Flow.

Import JS Eff.

(** A confirmation the signature check lets through: three truthy fields, a
    configured secret, and a signature that is the HMAC of the two printed
    ids. *)
Definition authentic (Number_toString : spec_float -> string)
  (KEY_SECRET : option string) (req_body : object) : Prop :=
  truthy (field req_body "razorpay_order_id") = true
  /\ truthy (field req_body "razorpay_payment_id") = true
  /\ truthy (field req_body "razorpay_signature") = true
  /\ exists key data,
       KEY_SECRET = Some key
       /\ Spec.signed_data Number_toString
            (field req_body "razorpay_order_id")
            (field req_body "razorpay_payment_id") = Some data
       /\ field req_body "razorpay_signature"
          = VStr (Crypto.hmac_sha256_hex key data).

(** The row the grant step inserts. *)
Definition grant_row (user_id course : value) : value :=
  VObj [("user_id", user_id); ("course_id", get_opt course "id")].

(** The answer when no course has the slug. *)
Definition course_not_found (slug : value) : response :=
  {| status := 500;
     body := VObj [("success", VBool false);
                   ("message", VStr "Course not found");
                   ("slug_received", slug)] |}.

(** The console line of a signature mismatch. *)
Definition mismatch_line (expected : string) (supplied : value) : entry :=
  Printed Log [VStr "Invalid signature";
               VObj [("expectedSignature", VStr expected);
                     ("razorpay_signature", supplied)]].

(** The console line of the [catch] clause of a handler. *)
Definition caught_line (label : string) (err : value) : entry :=
  Printed Error [VStr label; err].

(** The clock readings of a trace. *)
Fixpoint clock_reads (tr : list entry) : list spec_float :=
  match tr with
  | [] => []
  | Clock t :: rest => t :: clock_reads rest
  | _ :: rest => clock_reads rest
  end.

End Flow.

(* ------------------------------------------------------------------------- *)
(** ** More requests and environments *)

Module Cases.

Import JS Eff Backend Scenario.

(** The reference services with a gateway that refuses to create orders. *)
Definition gateway_down : environment world :=
  {| now := tick;
     upstream c w :=
       match c with
       | OrdersCreate _ =>
           (Rejected (VObj [("statusCode", int 502);
                            ("error", VObj [("code", VStr "GATEWAY_ERROR")])]),
            w)
       | _ => serve c w
       end |}.

(** A confirmation whose order id is the one-element array [["order_1"]]. *)
Definition array_confirmation : object :=
  [("razorpay_order_id", VArr [VStr "order_1"]);
   ("razorpay_payment_id", VStr "pay_abc");
   ("razorpay_signature", VStr (signature_of "order_1"))].

(** A purchase without receipt and currency, with a note of the caller's. *)
Definition campaign_purchase : object :=
  [("amount", int 50000);
   ("notes", VObj [("campaign", VStr "diwali");
                   ("course_slug", VStr "free-course")]);
   ("course_slug", VStr "intro-ts"); ("user_id", VStr "u123")].

(** A purchase in dollars. *)
Definition dollar_purchase : object :=
  [("amount", int 900); ("currency", VStr "USD"); ("receipt", VStr "rcpt_9");
   ("course_slug", VStr "intro-ts"); ("user_id", VStr "u123")].

Definition incomplete_purchase : object :=
  [("amount", int 50000); ("course_slug", VStr "intro-ts")].

(** A deployment with every variable set. *)
Definition production : Startup.variables :=
  {| Startup.RAZORPAY_KEY_ID := Some "rzp_test_id";
     Startup.RAZORPAY_KEY_SECRET := Some secret;
     Startup.SUPABASE_URL := Some "https://db.example";
     Startup.SUPABASE_SERVICE_ROLE_KEY := Some "service-role";
     Startup.PORT := None |}.

End Cases.

(* ------------------------------------------------------------------------- *)
(** ** Properties *)

Import JS Eff Spec.

(** *** The hash on published test vectors *)

(** FIPS 180-4, SHA-256 of [abc] and of the empty message. *)
Example sha256_abc :
  Crypto.sha256_hex "abc"
  = "ba7816bf8f01cfea414140de5dae2223b00361a396177a9cb410ff61f20015ad".
Proof. vm_compute. reflexivity. Qed.

Example sha256_empty :
  Crypto.sha256_hex ""
  = "e3b0c44298fc1c149afbf4c8996fb92427ae41e4649b934ca495991b7852b855".
Proof. vm_compute. reflexivity. Qed.

(** The constants are those of the standard: 64 of them, from
    [0x428a2f98] to [0xc67178f2], and the initial hash starts at
    [0x6a09e667]. *)
Example round_constants_ends :
  List.length Crypto.round_constants = 64%nat
  /\ hd 0%Z Crypto.round_constants = 0x428a2f98%Z
  /\ last Crypto.round_constants 0%Z = 0xc67178f2%Z
  /\ hd 0%Z Crypto.initial_hash = 0x6a09e667%Z.
Proof. vm_compute. repeat split. Qed.

(** RFC 4231, test case 2. *)
Example hmac_sha256_rfc4231_2 :
  Crypto.hmac_sha256_hex "Jefe" "what do ya want for nothing?"
  = "5bdcc146bf60754e6a042426089575c75a003f089d2739839dec58b964ec3843".
Proof. vm_compute. reflexivity. Qed.

(** A key longer than one block is hashed first. *)
Example hmac_sha256_long_key :
  Crypto.hmac_sha256_hex
    "kkkkkkkkkkkkkkkkkkkkkkkkkkkkkkkkkkkkkkkkkkkkkkkkkkkkkkkkkkkkkkkkkkkkkk"
    "order_9|pay_abc"
  = "4661f35d74dad37395cb6e1bb64d148796c276c5a9efff5e56020e222ec99fa5".
Proof. vm_compute. reflexivity. Qed.

(** *** Values and objects *)

Lemma append_assoc (a b c : string) : (a ++ b) ++ c = a ++ (b ++ c).
Proof. induction a; cbn; congruence. Qed.

Lemma strict_eq_string_true (v : value) (s : string) :
  strict_eq_string v s = true <-> v = VStr s.
Proof.
  destruct v; cbn; split; try discriminate.
  - intros H. apply String.eqb_eq in H. now subst.
  - intros [= ->]. apply String.eqb_refl.
Qed.

Lemma strict_eq_string_false (v : value) (s : string) :
  strict_eq_string v s = false <-> v <> VStr s.
Proof.
  rewrite <- strict_eq_string_true. destruct (strict_eq_string v s); split;
    congruence.
Qed.

Lemma truthy_string (s : string) : truthy (VStr s) = true <-> s <> "".
Proof.
  cbn. destruct (String.eqb_spec s ""); cbn; split; congruence.
Qed.

Lemma absent_field (o : object) (k : string) :
  absent o k -> field o k = VUndefined.
Proof. unfold absent, field. now intros ->. Qed.

Lemma concat_signed_data nts (o p : value) (prefix data : string) :
  concat nts o (VStr "|") = inl prefix ->
  concat nts (VStr prefix) p = inl data ->
  signed_data nts o p = Some data.
Proof.
  unfold concat, signed_data. cbn.
  destruct (to_string nts o); [|discriminate].
  intros [= <-]. destruct (to_string nts p); [|discriminate].
  intros [= <-]. now rewrite append_assoc.
Qed.

Lemma signed_data_concat nts (o p : value) (data : string) :
  signed_data nts o p = Some data ->
  exists prefix,
    concat nts o (VStr "|") = inl prefix /\
    concat nts (VStr prefix) p = inl data.
Proof.
  unfold concat, signed_data. cbn.
  destruct (to_string nts o) as [so|]; [|discriminate].
  destruct (to_string nts p) as [sp|]; [|discriminate].
  intros [= <-]. exists (so ++ "|"). now rewrite append_assoc.
Qed.

Lemma lookup_set_same (k : string) (v : value) (o : object) :
  lookup k (set k v o) = Some v.
Proof.
  induction o as [| [k' v'] o IH]; cbn.
  - now rewrite String.eqb_refl.
  - destruct (String.eqb_spec k k') as [-> | Hk]; cbn.
    + now rewrite String.eqb_refl.
    + destruct (String.eqb_spec k k'); [contradiction|exact IH].
Qed.

Lemma lookup_set_other (k k' : string) (v : value) (o : object) :
  k <> k' -> lookup k (set k' v o) = lookup k o.
Proof.
  intros Hk. induction o as [| [k'' v''] o IH]; cbn.
  - destruct (String.eqb_spec k k'); [contradiction|reflexivity].
  - destruct (String.eqb_spec k' k'') as [<- | Hk']; cbn.
    + destruct (String.eqb_spec k k'); [contradiction|reflexivity].
    + destruct (String.eqb_spec k k''); [reflexivity|exact IH].
Qed.

Lemma lookup_remove_same (k : string) (o : object) :
  lookup k (remove k o) = None.
Proof.
  induction o as [| [k' v'] o IH]; cbn; [reflexivity|].
  destruct (String.eqb_spec k k') as [-> | Hk]; cbn; [exact IH|].
  destruct (String.eqb_spec k k'); [contradiction|exact IH].
Qed.

Lemma lookup_remove_other (k k' : string) (o : object) :
  k <> k' -> lookup k (remove k' o) = lookup k o.
Proof.
  intros Hk. induction o as [| [k'' v''] o IH]; cbn; [reflexivity|].
  destruct (String.eqb_spec k' k'') as [<- | Hk']; cbn.
  - destruct (String.eqb_spec k k'); [contradiction|exact IH].
  - destruct (String.eqb_spec k k''); [reflexivity|exact IH].
Qed.

Lemma truthy_undefined : truthy VUndefined = false.
Proof. reflexivity. Qed.

Lemma truthy_get (v : value) (k : string) :
  truthy v = true -> get v k = inl (get_opt v k).
Proof.
  destruct v; cbn; try discriminate; reflexivity.
Qed.

Lemma get_notes_metadata (order : value) :
  match get order "notes" with
  | inl notes =>
      metadata_complete order
      = truthy (get_opt notes "course_slug") && truthy (get_opt notes "user_id")
      /\ nullish order = false
  | inr _ => metadata_complete order = false /\ nullish order = true
  end.
Proof.
  unfold metadata_complete, metadata.
  destruct (get order "notes") eqn:Hg; (split; [reflexivity|]);
    destruct order; cbn in Hg; try discriminate; reflexivity.
Qed.

Lemma field_remove (k : string) (o : object) :
  field (remove k o) k = VUndefined.
Proof. unfold field. now rewrite lookup_remove_same. Qed.

Lemma falsy_create_field (req_body : object) (k : string) :
  In k ["amount"; "course_slug"; "user_id"] ->
  truthy (field req_body k) = false ->
  truthy (field req_body "amount")
  && truthy (field req_body "course_slug")
  && truthy (field req_body "user_id") = false.
Proof.
  intros [<- | [<- | [<- | []]]] ->; rewrite ?andb_false_r; reflexivity.
Qed.

Lemma falsy_verify_field (req_body : object) (k : string) :
  In k ["razorpay_order_id"; "razorpay_payment_id"; "razorpay_signature"] ->
  truthy (field req_body k) = false ->
  truthy (field req_body "razorpay_order_id")
  && truthy (field req_body "razorpay_payment_id")
  && truthy (field req_body "razorpay_signature") = false.
Proof.
  intros [<- | [<- | [<- | []]]] ->; rewrite ?andb_false_r; reflexivity.
Qed.

(** Symbolic execution of a handler: split on every test the run meets. *)
Ltac explore :=
  repeat (cbn in *; match goal with
   | |- context [truthy ?v] => destruct (truthy v) eqn:?
   | |- context [concat ?n ?a ?b] => destruct (concat n a b) eqn:?
   | |- context [upstream ?E ?c ?w] =>
       destruct (upstream E c w) as [[?|?] ?] eqn:?
   | |- context [now ?E ?w] => destruct (now E w) eqn:?
   | |- context [get ?v ?k] => destruct (get v k) eqn:?
   | |- context [strict_eq_string ?v ?s] =>
       destruct (strict_eq_string v s) eqn:?
   | |- context [createHmac_sha256_hex ?key _] => destruct key eqn:?
   end); cbn in *.

(** *** Exceptions stop at the request boundary *)

Lemma try_catch_returns {W A : Type} (E : environment W) (p : prog A)
  (handler : value -> prog A) :
  (forall err w, exists a, result (run E (handler err) w) = Returned a) ->
  forall w, exists a, result (run E (try_catch p handler) w) = Returned a.
Proof.
  intros Hh. induction p as [a | err | s args k IH | k IH | c k IH];
    intros w; cbn.
  - now exists a.
  - apply Hh.
  - apply IH.
  - destruct (now E w) as [t w']. apply IH.
  - destruct (upstream E c w) as [r w']. apply IH.
Qed.

(** Every run of each of the four handlers ends with a response. *)
Lemma handlers_always_respond {W : Type} (E : environment W)
  (Number_toString : spec_float -> string) (KEY_SECRET : option string)
  (req_body : object) (w : W) :
  (exists resp,
     result (run E (V1.create_order Number_toString req_body) w)
     = Returned resp)
  /\ (exists resp,
        result (run E (V1.verify_payment Number_toString KEY_SECRET req_body) w)
        = Returned resp)
  /\ (exists resp,
        result (run E (V2.create_order Number_toString req_body) w)
        = Returned resp)
  /\ (exists resp,
        result (run E (V2.verify_payment Number_toString KEY_SECRET req_body) w)
        = Returned resp).
Proof.
  repeat split; apply try_catch_returns; intros err w'; eexists; reflexivity.
Qed.

Section Handlers.

Variable Number_toString : spec_float -> string.
Variable KEY_SECRET : option string.
Variable W : Type.
Variable E : environment W.

Local Opaque concat Crypto.hmac_sha256_hex.

Lemma verify_payment_falsy_field (req_body : object) (w : W) :
  truthy (field req_body "razorpay_order_id")
  && truthy (field req_body "razorpay_payment_id")
  && truthy (field req_body "razorpay_signature") = false ->
  run E (V2.verify_payment Number_toString KEY_SECRET req_body) w
  = {| trace := [];
       result := Returned (failure 400 "Missing payment details");
       final := w |}.
Proof.
  unfold V2.verify_payment.
  destruct (truthy (field req_body "razorpay_order_id"));
    destruct (truthy (field req_body "razorpay_payment_id"));
    destruct (truthy (field req_body "razorpay_signature"));
    cbn; intros H; try discriminate H; reflexivity.
Qed.

(** On a parsed body: a verify-payment request that lacks one of its three
    fields is answered 400 [{success: false, message}]; nothing is printed,
    no upstream call is made and the world is left as it was. *)
Theorem verify_payment_missing_field (req_body : object) (w : W) :
  absent req_body "razorpay_order_id"
  \/ absent req_body "razorpay_payment_id"
  \/ absent req_body "razorpay_signature" ->
  let r := run E (V2.verify_payment Number_toString KEY_SECRET req_body) w in
  result r = Returned (failure 400 "Missing payment details")
  /\ trace r = []
  /\ calls (trace r) = []
  /\ final r = w.
Proof.
  intros H r; subst r. rewrite verify_payment_falsy_field.
  - repeat split.
  - destruct H as [H | [H | H]]; apply absent_field in H; rewrite H,
      truthy_undefined; rewrite ?andb_false_r; reflexivity.
Qed.

Lemma verify_payment_checked (req_body : object) (w : W)
  (key data : string) :
  truthy (field req_body "razorpay_order_id") = true ->
  truthy (field req_body "razorpay_payment_id") = true ->
  truthy (field req_body "razorpay_signature") = true ->
  KEY_SECRET = Some key ->
  signed_data Number_toString (field req_body "razorpay_order_id")
    (field req_body "razorpay_payment_id") = Some data ->
  field req_body "razorpay_signature" <> VStr (Crypto.hmac_sha256_hex key data) ->
  run E (V2.verify_payment Number_toString KEY_SECRET req_body) w
  = {| trace :=
         [Printed Log
            [VStr "Invalid signature";
             VObj [("expectedSignature",
                    VStr (Crypto.hmac_sha256_hex key data));
                   ("razorpay_signature",
                    field req_body "razorpay_signature")]]];
       result := Returned (failure 400 "Invalid signature");
       final := w |}.
Proof.
  intros Ho Hp Hs Hk Hd Hneq. unfold V2.verify_payment.
  apply signed_data_concat in Hd as (prefix & Hc1 & Hc2).
  apply strict_eq_string_false in Hneq.
  rewrite Ho, Hp, Hs, Hk. cbn. rewrite Hc1. cbn. rewrite Hc2. cbn.
  rewrite Hneq. reflexivity.
Qed.

Lemma verify_payment_valid (req_body : object) (w : W)
  (key data : string) :
  truthy (field req_body "razorpay_order_id") = true ->
  truthy (field req_body "razorpay_payment_id") = true ->
  truthy (field req_body "razorpay_signature") = true ->
  KEY_SECRET = Some key ->
  signed_data Number_toString (field req_body "razorpay_order_id")
    (field req_body "razorpay_payment_id") = Some data ->
  field req_body "razorpay_signature" = VStr (Crypto.hmac_sha256_hex key data) ->
  let r := run E (V2.verify_payment Number_toString KEY_SECRET req_body) w in
  accepted (trace r) = true
  /\ hd_error (calls (trace r))
      = Some (OrdersFetch (field req_body "razorpay_order_id"))
  /\ result r <> Returned (failure 400 "Invalid signature")
  /\ result r <> Returned (failure 400 "Missing payment details").
Proof.
  intros Ho Hp Hs Hk Hd Heq r. subst r. unfold V2.verify_payment.
  apply signed_data_concat in Hd as (prefix & Hc1 & Hc2).
  apply strict_eq_string_true in Heq.
  rewrite Ho, Hp, Hs, Hk. cbn. rewrite Hc1. cbn. rewrite Hc2. cbn.
  rewrite Heq. cbn. split; [reflexivity|].
  explore; repeat split; discriminate.
Qed.

(** C2. With the secret configured and three non-empty strings in the
    request, the confirmation is accepted (the handler prints
    [PAYMENT VERIFIED:] and goes on to fetch the order) exactly when the
    supplied signature is the hexadecimal HMAC-SHA256 of
    [order_id + "|" + payment_id] under the secret, and it is answered
    400 [Invalid signature] exactly when it is any other string. *)
Theorem verify_payment_accepts_exactly_the_hmac
  (req_body : object) (w : W) (key order_id payment_id signature : string) :
  KEY_SECRET = Some key ->
  field req_body "razorpay_order_id" = VStr order_id ->
  field req_body "razorpay_payment_id" = VStr payment_id ->
  field req_body "razorpay_signature" = VStr signature ->
  order_id <> "" -> payment_id <> "" -> signature <> "" ->
  let expected := Crypto.hmac_sha256_hex key (order_id ++ "|" ++ payment_id) in
  let r := run E (V2.verify_payment Number_toString KEY_SECRET req_body) w in
  (accepted (trace r) = true <-> signature = expected)
  /\ (result r = Returned (failure 400 "Invalid signature")
      <-> signature <> expected)
  /\ (signature = expected ->
      hd_error (calls (trace r)) = Some (OrdersFetch (VStr order_id)))
  /\ (signature <> expected -> calls (trace r) = [] /\ final r = w).
Proof.
  intros Hk Ho Hp Hs Hno Hnp Hns expected r. subst expected.
  apply truthy_string in Hno, Hnp, Hns.
  assert (Hd : signed_data Number_toString (field req_body "razorpay_order_id")
                 (field req_body "razorpay_payment_id")
               = Some (order_id ++ "|" ++ payment_id))
    by (rewrite Ho, Hp; reflexivity).
  rewrite <- Ho in Hno. rewrite <- Hp in Hnp. rewrite <- Hs in Hns.
  destruct (String.eqb_spec signature
              (Crypto.hmac_sha256_hex key (order_id ++ "|" ++ payment_id)))
    as [Heq | Hneq].
  - destruct (verify_payment_valid req_body w key _ Hno Hnp Hns Hk Hd)
      as (Ha & Hc & Hr & _); [congruence|].
    fold r in Ha, Hc, Hr. rewrite Ho in Hc.
    repeat split; try tauto; congruence.
  - assert (Hrun := verify_payment_checked req_body w key _ Hno Hnp Hns Hk Hd).
    fold r in Hrun. rewrite Hrun by congruence.
    cbn. repeat split; try tauto; try congruence.
Qed.

(** C1. A run of verify-payment attempts the grant insert only when the
    secret is configured and the supplied signature is the HMAC of the
    request's [order_id + "|" + payment_id]; with any other signature the
    handler answers 400 at once: the only thing it does is print the
    mismatch, no upstream call is made and the world is left as it was. *)
Theorem grant_requires_valid_signature (req_body : object) (w : W) :
  let order_id := field req_body "razorpay_order_id" in
  let payment_id := field req_body "razorpay_payment_id" in
  let signature := field req_body "razorpay_signature" in
  let r := run E (V2.verify_payment Number_toString KEY_SECRET req_body) w in
  (existsb is_insert (calls (trace r)) = true ->
   exists key data,
     KEY_SECRET = Some key
     /\ signed_data Number_toString order_id payment_id = Some data
     /\ signature = VStr (Crypto.hmac_sha256_hex key data))
  /\ (forall key data,
        truthy order_id = true -> truthy payment_id = true ->
        truthy signature = true ->
        KEY_SECRET = Some key ->
        signed_data Number_toString order_id payment_id = Some data ->
        signature <> VStr (Crypto.hmac_sha256_hex key data) ->
        result r = Returned (failure 400 "Invalid signature")
        /\ calls (trace r) = []
        /\ final r = w).
Proof.
  intros order_id payment_id signature r.
  subst order_id payment_id signature r. split.
  - unfold V2.verify_payment. explore; try discriminate.
    all: intros _; eexists _, _; split; [reflexivity|]; split;
      [ eapply concat_signed_data; eassumption
      | now apply strict_eq_string_true ].
  - intros key data Ho Hp Hs Hk Hd Hneq.
    rewrite (verify_payment_checked req_body w key data) by assumption.
    repeat split.
Qed.

(** C7. When the signature matches and the gateway returns an order whose
    notes lack a course_slug or a user_id, the request ends with 500
    [{success: false, message}]: [Missing metadata], or the message of the
    [catch] clause when the gateway returned [null] or [undefined] for the
    order.  The order fetch is the only upstream call, so no course is looked
    up and no grant is inserted. *)
Theorem verify_payment_missing_metadata (req_body : object) (w w' : W)
  (key data : string) (order : value) :
  let order_id := field req_body "razorpay_order_id" in
  let payment_id := field req_body "razorpay_payment_id" in
  let signature := field req_body "razorpay_signature" in
  truthy order_id = true -> truthy payment_id = true ->
  truthy signature = true ->
  KEY_SECRET = Some key ->
  signed_data Number_toString order_id payment_id = Some data ->
  signature = VStr (Crypto.hmac_sha256_hex key data) ->
  upstream E (OrdersFetch order_id) w = (Fulfilled order, w') ->
  metadata_complete order = false ->
  let r := run E (V2.verify_payment Number_toString KEY_SECRET req_body) w in
  result r
  = Returned (failure 500 (if nullish order
                           then "Server error verifying payment"
                           else "Missing metadata"))
  /\ calls (trace r) = [OrdersFetch order_id]
  /\ existsb is_lookup (calls (trace r)) = false
  /\ existsb is_insert (calls (trace r)) = false
  /\ final r = w'.
Proof.
  intros order_id payment_id signature Ho Hp Hs Hk Hd Heq Hfetch Hmeta r.
  subst order_id payment_id signature r. unfold V2.verify_payment.
  apply signed_data_concat in Hd as (prefix & Hc1 & Hc2).
  apply strict_eq_string_true in Heq.
  rewrite Ho, Hp, Hs, Hk. cbn. rewrite Hc1. cbn. rewrite Hc2. cbn.
  rewrite Heq. cbn. rewrite Hfetch. cbn.
  pose proof (get_notes_metadata order) as Hn.
  destruct (get order "notes") as [notes | err]; cbn.
  - destruct Hn as [Hn ->]. rewrite Hmeta in Hn. symmetry in Hn.
    rewrite <- negb_true_iff, negb_andb in Hn. rewrite Hn. cbn.
    repeat split.
  - destruct Hn as [_ ->]. repeat split.
Qed.

Ltac leaf_calls :=
  intros H; try discriminate H; eexists _, _; reflexivity.

(** C8. The two versions of the server in the file do not behave alike.  On
    a confirmation whose signature is valid, the first version answers
    [{success: true}] without any upstream call; the second version first
    fetches the order, and when it answers [{success: true}] it has fetched
    the order, looked the course up and inserted the grant, in that order. *)
Theorem versions_differ_on_valid_signature (req_body : object) (w : W)
  (key data : string) :
  let order_id := field req_body "razorpay_order_id" in
  let payment_id := field req_body "razorpay_payment_id" in
  let signature := field req_body "razorpay_signature" in
  truthy order_id = true -> truthy payment_id = true ->
  truthy signature = true ->
  KEY_SECRET = Some key ->
  signed_data Number_toString order_id payment_id = Some data ->
  signature = VStr (Crypto.hmac_sha256_hex key data) ->
  let r1 := run E (V1.verify_payment Number_toString KEY_SECRET req_body) w in
  let r2 := run E (V2.verify_payment Number_toString KEY_SECRET req_body) w in
  (result r1 = Returned success /\ calls (trace r1) = [] /\ final r1 = w)
  /\ hd_error (calls (trace r2)) = Some (OrdersFetch order_id)
  /\ (result r2 = Returned success ->
      exists slug row,
        calls (trace r2)
        = [OrdersFetch order_id; CoursesBySlug slug; UserCoursesInsert row]).
Proof.
  intros order_id payment_id signature Ho Hp Hs Hk Hd Heq r1 r2.
  subst order_id payment_id signature r1 r2.
  split; [|split].
  - unfold V1.verify_payment.
    apply signed_data_concat in Hd as (prefix & Hc1 & Hc2).
    apply strict_eq_string_true in Heq.
    rewrite Ho, Hp, Hs, Hk. cbn. rewrite Hc1. cbn. rewrite Hc2. cbn.
    rewrite Heq. cbn. repeat split.
  - now apply (verify_payment_valid req_body w key data).
  - unfold V2.verify_payment.
    apply signed_data_concat in Hd as (prefix & Hc1 & Hc2).
    apply strict_eq_string_true in Heq.
    rewrite Ho, Hp, Hs, Hk. cbn. rewrite Hc1. cbn. rewrite Hc2. cbn.
    rewrite Heq. cbn. explore; leaf_calls.
Qed.

Ltac leaf_body :=
  eexists; split; [reflexivity|];
  first [ left; reflexivity
        | right; left; cbn; unfold failure; tauto
        | right; right; eexists _, _, _; split;
          [ cbn; right; left; reflexivity
          | split; [ unfold metadata;
                     match goal with H : get _ "notes" = _ |- _ => rewrite H end;
                     reflexivity
                   | reflexivity ] ] ].

(** C6. Every run of verify-payment ends with a response, and
    it is one of: [{success: true}]; [{success: false, message}] with one of
    five fixed messages; or the course-not-found response, which carries,
    next to [success] and [message], the field [slug_received] holding the
    course_slug read from the notes of the fetched order.  No response holds
    a thrown error or any other upstream value. *)
Theorem verify_payment_response_bodies (req_body : object) (w : W) :
  let r := run E (V2.verify_payment Number_toString KEY_SECRET req_body) w in
  exists resp,
    result r = Returned resp
    /\ (resp = success
        \/ In resp [failure 400 "Missing payment details";
                    failure 400 "Invalid signature";
                    failure 500 "Missing metadata";
                    failure 500 "Could not grant access";
                    failure 500 "Server error verifying payment"]
        \/ exists order slug user_id,
             In (Called (OrdersFetch (field req_body "razorpay_order_id"))
                        (Fulfilled order)) (trace r)
             /\ metadata order = Some (slug, user_id)
             /\ resp = {| status := 500;
                          body := VObj [("success", VBool false);
                                        ("message", VStr "Course not found");
                                        ("slug_received", slug)] |}).
Proof.
  intros r; subst r. unfold V2.verify_payment.
  explore; leaf_body.
Qed.

Ltac leaf_insert :=
  let H := fresh "H" in
  intros H; cbn in H;
  repeat (destruct H as [H | H]; [try discriminate H|]); try contradiction;
  injection H as ? ?; subst; intros ? ?;
  repeat match goal with
    | H : strict_eq_string _ _ = true |- _ => apply strict_eq_string_true in H
    | H : strict_eq_string _ _ = false |- _ => apply strict_eq_string_false in H
    | H : get ?v ?k = _, T : truthy ?v = true |- _ =>
        rewrite (truthy_get v k T) in H
    end;
  try congruence; cbn; unfold success, failure;
  split; intros; congruence.

Lemma insert_error_decides (req_body : object) (w : W)
  (row inserted ucError : value) :
  let r := run E (V2.verify_payment Number_toString KEY_SECRET req_body) w in
  In (Called (UserCoursesInsert row) (Fulfilled inserted)) (trace r) ->
  get inserted "error" = inl ucError ->
  truthy ucError = true ->
  (get_opt ucError "code" = VStr "23505" -> result r = Returned success)
  /\ (get_opt ucError "code" <> VStr "23505" ->
      result r = Returned (failure 500 "Could not grant access")).
Proof.
  intros r; subst r. unfold V2.verify_payment.
  explore; leaf_insert.
Qed.

Lemma insert_rejected_fails (req_body : object) (w : W)
  (row reason : value) :
  let r := run E (V2.verify_payment Number_toString KEY_SECRET req_body) w in
  In (Called (UserCoursesInsert row) (Rejected reason)) (trace r) ->
  result r = Returned (failure 500 "Server error verifying payment").
Proof.
  intros r; subst r. unfold V2.verify_payment.
  explore; intros H; cbn in H;
    repeat (destruct H as [H | H]; [try discriminate H|]);
    try contradiction; reflexivity.
Qed.

(** *** Order creation *)

Lemma create_order_falsy_field (req_body : object) (w : W) :
  truthy (field req_body "amount")
  && truthy (field req_body "course_slug")
  && truthy (field req_body "user_id") = false ->
  run E (V2.create_order Number_toString req_body) w
  = {| trace :=
         [Printed Log
            [VStr "CREATE ORDER BODY:";
             VObj [("amount", field req_body "amount");
                   ("course_slug", field req_body "course_slug");
                   ("user_id", field req_body "user_id")]]];
       result :=
         Returned (error_only 400
                     "Amount, course_slug and user_id are required");
       final := w |}.
Proof.
  unfold V2.create_order.
  destruct (truthy (field req_body "amount"));
    destruct (truthy (field req_body "course_slug"));
    destruct (truthy (field req_body "user_id"));
    cbn; intros H; try discriminate H; reflexivity.
Qed.

Lemma create_order_v1_falsy_amount (req_body : object) (w : W) :
  truthy (field req_body "amount") = false ->
  run E (V1.create_order Number_toString req_body) w
  = {| trace := [];
       result := Returned (error_only 400 "Amount is required");
       final := w |}.
Proof. unfold V1.create_order. intros ->. reflexivity. Qed.

(** On a parsed body: a create-order request whose amount, course_slug or
    user_id is missing or empty is answered 400 with an [{error}] body by the
    second version, which does not call the gateway; the first version does
    so for the amount. *)
Theorem create_order_missing_field (req_body : object) (w : W) :
  let r1 := run E (V1.create_order Number_toString req_body) w in
  let r2 := run E (V2.create_order Number_toString req_body) w in
  (missing_or_empty (field req_body "amount")
   \/ missing_or_empty (field req_body "course_slug")
   \/ missing_or_empty (field req_body "user_id") ->
   result r2
   = Returned (error_only 400 "Amount, course_slug and user_id are required")
   /\ calls (trace r2) = []
   /\ final r2 = w)
  /\ (missing_or_empty (field req_body "amount") ->
      result r1 = Returned (error_only 400 "Amount is required")
      /\ calls (trace r1) = []
      /\ final r1 = w).
Proof.
  intros r1 r2; subst r1 r2. split.
  - intros H. rewrite create_order_falsy_field; [repeat split|].
    destruct H as [[H | H] | [[H | H] | [H | H]]]; rewrite H; cbn;
      rewrite ?andb_false_r; reflexivity.
  - intros H. rewrite create_order_v1_falsy_amount; [repeat split|].
    destruct H as [H | H]; rewrite H; reflexivity.
Qed.

Ltac leaf_create :=
  let H := fresh "H" in
  intros ? ? H; cbn in H;
  repeat (destruct H as [H | H]; [try discriminate H|]); try contradiction;
  (injection H as ? ?; subst; eexists; split; [reflexivity|]; unfold field;
   rewrite lookup_set_other, !lookup_set_same by discriminate;
   split; reflexivity).

Ltac leaf_created :=
  let H := fresh "H" in
  intros ? H; try discriminate H;
  (injection H as <-; cbn; intros; try discriminate; eexists;
   repeat first [left; reflexivity | right]).

(** C9. Whenever the second version of create-order calls the gateway, the
    notes of the order it asks for hold the request's own course_slug and
    user_id, whatever the request's [notes] object contains; and a request
    answered 200 is answered with the order the gateway created from those
    options. *)
Theorem create_order_metadata_from_arguments (req_body : object) (w : W) :
  let r := run E (V2.create_order Number_toString req_body) w in
  (forall options answer,
     In (Called (OrdersCreate options) answer) (trace r) ->
     exists notes,
       get options "notes" = inl (VObj notes)
       /\ field notes "course_slug" = field req_body "course_slug"
       /\ field notes "user_id" = field req_body "user_id")
  /\ (forall resp,
        result r = Returned resp -> status resp = 200 ->
        exists options,
          In (Called (OrdersCreate options) (Fulfilled (body resp)))
             (trace r)).
Proof.
  intros r; subst r. unfold V2.create_order. split.
  - explore; leaf_create.
  - explore; leaf_created.
Qed.

(** C10. Presence of a field is its truthiness.  A create-order request
    whose amount is the number 0, or in which one of amount, course_slug and
    user_id is the empty string, gets the 400 answer, without a gateway call,
    that the same request without that field gets; a verify-payment request
    in which one of the three fields is the empty string gets the 400
    [Missing payment details] answer and runs exactly as the request without
    that field. *)
Theorem presence_is_truthiness (req_body : object) (w : W) (k : string) :
  let created := run E (V2.create_order Number_toString req_body) w in
  let created' :=
    run E (V2.create_order Number_toString (remove k req_body)) w in
  let verified :=
    run E (V2.verify_payment Number_toString KEY_SECRET req_body) w in
  let verified' :=
    run E (V2.verify_payment Number_toString KEY_SECRET (remove k req_body))
      w in
  (In k ["amount"; "course_slug"; "user_id"] ->
   field req_body k = VStr "" \/ (k = "amount" /\ zero (field req_body k)) ->
   result created
   = Returned (error_only 400 "Amount, course_slug and user_id are required")
   /\ calls (trace created) = []
   /\ result created' = result created
   /\ calls (trace created') = [])
  /\ (In k ["razorpay_order_id"; "razorpay_payment_id";
            "razorpay_signature"] ->
      field req_body k = VStr "" ->
      result verified = Returned (failure 400 "Missing payment details")
      /\ calls (trace verified) = []
      /\ verified' = verified).
Proof.
  intros created created' verified verified'.
  subst created created' verified verified'. split.
  - intros Hk Hv.
    assert (Hf : truthy (field req_body k) = false).
    { destruct Hv as [-> | [_ [sign ->]]]; reflexivity. }
    rewrite (create_order_falsy_field req_body)
      by (now apply (falsy_create_field req_body k)).
    rewrite (create_order_falsy_field (remove k req_body))
      by (apply (falsy_create_field _ k Hk); now rewrite field_remove).
    repeat split.
  - intros Hk Hv.
    assert (Hf : truthy (field req_body k) = false) by now rewrite Hv.
    rewrite (verify_payment_falsy_field req_body)
      by (now apply (falsy_verify_field req_body k)).
    rewrite (verify_payment_falsy_field (remove k req_body))
      by (apply (falsy_verify_field _ k Hk); now rewrite field_remove).
    repeat split.
Qed.

End Handlers.

(** *** The reference store *)

Lemma float_eqb_refl (x : spec_float) : Backend.float_eqb x x = true.
Proof.
  destruct x; cbn; rewrite ?Bool.eqb_reflx, ?Pos.eqb_refl, ?Z.eqb_refl;
    reflexivity.
Qed.

Lemma value_eqb_refl : forall v : value, Backend.value_eqb v v = true.
Proof.
  fix IH 1. intros [| | b | x | s | elems | props]; cbn.
  - reflexivity.
  - reflexivity.
  - apply Bool.eqb_reflx.
  - apply float_eqb_refl.
  - apply String.eqb_refl.
  - induction elems as [| x rest IHrest]; [reflexivity|].
    now rewrite IH, IHrest.
  - induction props as [| [k x] rest IHrest]; [reflexivity|].
    now rewrite String.eqb_refl, IH, IHrest.
Qed.

Lemma float_eqb_eq (x y : spec_float) : Backend.float_eqb x y = true -> x = y.
Proof.
  destruct x, y; cbn; try discriminate; try reflexivity.
  - intros H. apply Bool.eqb_prop in H. now subst.
  - intros H. apply Bool.eqb_prop in H. now subst.
  - rewrite !andb_true_iff. intros [[Hs Hm] He].
    apply Bool.eqb_prop in Hs. apply Pos.eqb_eq in Hm. apply Z.eqb_eq in He.
    now subst.
Qed.

Lemma value_eqb_eq : forall a b : value, Backend.value_eqb a b = true -> a = b.
Proof.
  fix IH 1. intros [| | x | x | x | xs | ps] [| | y | y | y | ys | qs]; cbn;
    try discriminate; try reflexivity.
  - intros H. apply Bool.eqb_prop in H. now subst.
  - intros H. apply float_eqb_eq in H. now subst.
  - intros H. apply String.eqb_eq in H. now subst.
  - intros H. f_equal. revert ys H.
    induction xs as [| x xs IHxs]; intros [| y ys]; try discriminate;
      [reflexivity|].
    rewrite andb_true_iff. intros [Hx Hxs]. f_equal; [now apply IH|].
    now apply IHxs.
  - intros H. f_equal. revert qs H.
    induction ps as [| [k x] ps IHps]; intros [| [k' y] qs]; try discriminate;
      [reflexivity|].
    rewrite !andb_true_iff. intros [[Hk Hx] Hps].
    apply String.eqb_eq in Hk. subst. f_equal; [f_equal; now apply IH|].
    now apply IHps.
Qed.

Lemma same_grant_refl (user_id course_id : value) :
  Backend.same_grant user_id course_id (user_id, course_id) = true.
Proof. unfold Backend.same_grant. cbn. now rewrite !value_eqb_refl. Qed.

(** The rows [grants] counts are the rows equal to the pair. *)
Lemma same_grant_iff (user_id course_id : value) (row : value * value) :
  Backend.same_grant user_id course_id row = true
  <-> row = (user_id, course_id).
Proof.
  split.
  - unfold Backend.same_grant. rewrite andb_true_iff. intros [Hu Hc].
    apply value_eqb_eq in Hu, Hc. destruct row; cbn in *. now subst.
  - intros ->. apply same_grant_refl.
Qed.

Lemma filter_none {A : Type} (f : A -> bool) (l : list A) :
  existsb f l = false -> filter f l = [].
Proof.
  induction l as [| x l IH]; cbn; [reflexivity|].
  destruct (f x); cbn; [discriminate|exact IH].
Qed.

Lemma filter_some {A : Type} (f : A -> bool) (l : list A) :
  existsb f l = true -> (1 <= List.length (filter f l))%nat.
Proof.
  induction l as [| x l IH]; cbn; [discriminate|].
  destruct (f x); cbn; [lia|exact IH].
Qed.

Section Store.

Import Backend.

Variable Number_toString : spec_float -> string.
Variable KEY_SECRET : option string.

Local Opaque Crypto.hmac_sha256_hex.

(** One verified confirmation against the reference store: the request is
    answered [{success: true}], and afterwards the store holds a grant for
    the user and the course, one more than before if there was none. *)
Lemma grant_once (req_body : object) (w : world) (key data id : string)
  (order slug user_id course : value) :
  field req_body "razorpay_order_id" = VStr id ->
  truthy (field req_body "razorpay_payment_id") = true ->
  truthy (field req_body "razorpay_signature") = true ->
  KEY_SECRET = Some key ->
  signed_data Number_toString (VStr id)
    (field req_body "razorpay_payment_id") = Some data ->
  field req_body "razorpay_signature" = VStr (Crypto.hmac_sha256_hex key data) ->
  id <> "" ->
  lookup id (orders w) = Some order ->
  metadata order = Some (slug, user_id) ->
  truthy slug = true -> truthy user_id = true ->
  filter (has_slug slug) (courses w) = [course] ->
  truthy course = true ->
  let r := run services
             (V2.verify_payment Number_toString KEY_SECRET req_body) w in
  let course_id := get_opt course "id" in
  result r = Returned success
  /\ orders (final r) = orders w
  /\ courses (final r) = courses w
  /\ grants user_id course_id (final r)
     = Nat.max 1 (grants user_id course_id w).
Proof.
  intros Ho Hp Hs Hk Hd Heq Hid Horder Hmeta Hslug Huser Hcourse Htruthy r.
  subst r. unfold V2.verify_payment.
  apply signed_data_concat in Hd as (prefix & Hc1 & Hc2).
  apply strict_eq_string_true in Heq. apply truthy_string in Hid.
  rewrite Ho, Hid, Hp, Hs, Hk. cbn [negb orb].
  rewrite Hc1. cbn [eval bind]. rewrite Hc2. cbn [eval bind createHmac_sha256_hex].
  rewrite Heq. cbn [negb]. cbn -[get truthy get_opt].
  rewrite Horder. cbn -[get truthy get_opt].
  unfold metadata in Hmeta.
  destruct (get order "notes") as [notes|] eqn:Hnotes; [|discriminate].
  injection Hmeta as <- <-. cbn -[get truthy get_opt].
  rewrite Hslug, Huser. cbn -[get truthy get_opt].
  rewrite Hcourse. cbn -[truthy get_opt]. rewrite Htruthy.
  cbn -[truthy get_opt].
  rewrite (truthy_get course "id" Htruthy). cbn -[truthy get_opt].
  change (truthy VNull) with false. cbn -[truthy get_opt].
  change (get_opt (VObj [("user_id", get_opt notes "user_id");
                         ("course_id", get_opt course "id")]) "user_id")
    with (get_opt notes "user_id").
  change (get_opt (VObj [("user_id", get_opt notes "user_id");
                         ("course_id", get_opt course "id")]) "course_id")
    with (get_opt course "id").
  unfold grants.
  destruct (existsb (same_grant (get_opt notes "user_id") (get_opt course "id"))
              (user_courses w)) eqn:Hex; cbn.
  - apply filter_some in Hex. repeat split.
    destruct (List.length _); [lia|reflexivity].
  - apply filter_none in Hex. repeat split.
    rewrite filter_app, Hex. cbn. now rewrite same_grant_refl.
Qed.

(** Two confirmations in a row. *)
Lemma grant_twice (req_body : object) (w : world) (key data id : string)
  (order slug user_id course : value) :
  field req_body "razorpay_order_id" = VStr id ->
  truthy (field req_body "razorpay_payment_id") = true ->
  truthy (field req_body "razorpay_signature") = true ->
  KEY_SECRET = Some key ->
  signed_data Number_toString (VStr id)
    (field req_body "razorpay_payment_id") = Some data ->
  field req_body "razorpay_signature" = VStr (Crypto.hmac_sha256_hex key data) ->
  id <> "" ->
  lookup id (orders w) = Some order ->
  metadata order = Some (slug, user_id) ->
  truthy slug = true -> truthy user_id = true ->
  filter (has_slug slug) (courses w) = [course] ->
  truthy course = true ->
  (grants user_id (get_opt course "id") w <= 1)%nat ->
  let handler := V2.verify_payment Number_toString KEY_SECRET req_body in
  let first := run services handler w in
  let second := run services handler (final first) in
  result first = Returned success
  /\ result second = Returned success
  /\ grants user_id (get_opt course "id") (final second) = 1%nat.
Proof.
  intros Ho Hp Hs Hk Hd Heq Hid Horder Hmeta Hslug Huser Hcourse Htruthy
    Hunique handler first second.
  destruct (grant_once req_body w key data id order slug user_id course)
    as (R1 & O1 & C1 & G1); trivial.
  fold handler first in R1, O1, C1, G1.
  destruct (grant_once req_body (final first) key data id order slug user_id
              course)
    as (R2 & _ & _ & G2); trivial; try congruence.
  fold handler second in R2, G2.
  repeat split; trivial. lia.
Qed.

End Store.

(** C4. In the access-grant step an insert error with code [23505] (the
    grant exists already) is treated as success and the request is answered
    [{success: true}]; any other insert error, and an insert that is
    rejected, ends the request with a 500 failure.  Against a store that
    keeps [(user_id, course_id)] unique, a verified confirmation handled
    twice therefore succeeds both times and leaves exactly one grant row. *)
Theorem duplicate_grant_is_success
  (Number_toString : spec_float -> string) (KEY_SECRET : option string) :
  (forall (W : Type) (E : environment W) (req_body : object) (w : W)
          (row : value),
     let r := run E (V2.verify_payment Number_toString KEY_SECRET req_body) w in
     (forall inserted ucError,
        In (Called (UserCoursesInsert row) (Fulfilled inserted)) (trace r) ->
        get inserted "error" = inl ucError ->
        truthy ucError = true ->
        (get_opt ucError "code" = VStr "23505" ->
         result r = Returned success)
        /\ (get_opt ucError "code" <> VStr "23505" ->
            result r = Returned (failure 500 "Could not grant access")))
     /\ (forall reason,
           In (Called (UserCoursesInsert row) (Rejected reason)) (trace r) ->
           result r = Returned (failure 500 "Server error verifying payment")))
  /\ (forall (req_body : object) (w : Backend.world) (key data id : string)
             (order slug user_id course : value),
        field req_body "razorpay_order_id" = VStr id ->
        truthy (field req_body "razorpay_payment_id") = true ->
        truthy (field req_body "razorpay_signature") = true ->
        KEY_SECRET = Some key ->
        signed_data Number_toString (VStr id)
          (field req_body "razorpay_payment_id") = Some data ->
        field req_body "razorpay_signature"
        = VStr (Crypto.hmac_sha256_hex key data) ->
        id <> "" ->
        lookup id (Backend.orders w) = Some order ->
        metadata order = Some (slug, user_id) ->
        truthy slug = true -> truthy user_id = true ->
        filter (Backend.has_slug slug) (Backend.courses w) = [course] ->
        truthy course = true ->
        (Backend.grants user_id (get_opt course "id") w <= 1)%nat ->
        let handler := V2.verify_payment Number_toString KEY_SECRET req_body in
        let first := run Backend.services handler w in
        let second := run Backend.services handler (final first) in
        result first = Returned success
        /\ result second = Returned success
        /\ Backend.grants user_id (get_opt course "id") (final second)
           = 1%nat).
Proof.
  split.
  - intros W E req_body w row r. split.
    + intros inserted ucError.
      apply (insert_error_decides Number_toString KEY_SECRET W E).
    + intros reason.
      apply (insert_rejected_fails Number_toString KEY_SECRET W E).
  - intros req_body w key data id order slug user_id course.
    apply grant_twice.
Qed.

(* ------------------------------------------------------------------------- *)
(** ** The theorems at work on the shop *)

Import Backend Scenario.

Lemma grant_requires_valid_signature_witness :
  let paid := run services
                (V2.verify_payment Number_toString KEY_SECRET
                   (genuine "order_1")) shop in
  let fake := run services
                (V2.verify_payment Number_toString KEY_SECRET forged) shop in
  (existsb is_insert (calls (trace paid)) = true
   /\ exists key data,
        KEY_SECRET = Some key
        /\ signed_data Number_toString
             (field (genuine "order_1") "razorpay_order_id")
             (field (genuine "order_1") "razorpay_payment_id") = Some data
        /\ field (genuine "order_1") "razorpay_signature"
           = VStr (Crypto.hmac_sha256_hex key data))
  /\ (field forged "razorpay_signature"
      <> VStr (Crypto.hmac_sha256_hex secret "order_1|pay_abc")
      /\ result fake = Returned (failure 400 "Invalid signature")
      /\ calls (trace fake) = []
      /\ final fake = shop).
Proof.
  intros paid fake. split.
  - assert (H : existsb is_insert (calls (trace paid)) = true)
      by (vm_compute; reflexivity).
    split; [exact H|].
    exact (proj1 (grant_requires_valid_signature Number_toString KEY_SECRET
                    world services (genuine "order_1") shop) H).
  - assert (H : field forged "razorpay_signature"
                <> VStr (Crypto.hmac_sha256_hex secret "order_1|pay_abc"))
      by (vm_compute; discriminate).
    split; [exact H|].
    exact (proj2 (grant_requires_valid_signature Number_toString KEY_SECRET
                    world services forged shop)
             secret "order_1|pay_abc" eq_refl eq_refl eq_refl eq_refl
             eq_refl H).
Defined.

Lemma verify_payment_accepts_exactly_the_hmac_witness :
  let expected := Crypto.hmac_sha256_hex secret ("order_1" ++ "|" ++ "pay_abc") in
  let zeros :=
    "0000000000000000000000000000000000000000000000000000000000000000" in
  let paid := run services
                (V2.verify_payment Number_toString KEY_SECRET
                   (genuine "order_1")) shop in
  let fake := run services
                (V2.verify_payment Number_toString KEY_SECRET forged) shop in
  (KEY_SECRET = Some secret
   /\ field (genuine "order_1") "razorpay_order_id" = VStr "order_1"
   /\ field (genuine "order_1") "razorpay_payment_id" = VStr "pay_abc"
   /\ field (genuine "order_1") "razorpay_signature" = VStr expected
   /\ field forged "razorpay_signature" = VStr zeros
   /\ "order_1" <> "" /\ "pay_abc" <> "" /\ expected <> "" /\ zeros <> "")
  /\ (expected = expected
      /\ accepted (trace paid) = true
      /\ hd_error (calls (trace paid)) = Some (OrdersFetch (VStr "order_1")))
  /\ (zeros <> expected
      /\ result fake = Returned (failure 400 "Invalid signature")
      /\ calls (trace fake) = []
      /\ final fake = shop).
Proof.
  intros expected zeros paid fake.
  assert (Ho : "order_1" <> "") by discriminate.
  assert (Hp : "pay_abc" <> "") by discriminate.
  assert (He : expected <> "") by (vm_compute; discriminate).
  assert (Hz : zeros <> "") by discriminate.
  assert (Hneq : zeros <> expected) by (vm_compute; discriminate).
  pose proof (verify_payment_accepts_exactly_the_hmac Number_toString
                KEY_SECRET world services (genuine "order_1") shop secret
                "order_1" "pay_abc" expected eq_refl eq_refl eq_refl eq_refl
                Ho Hp He) as (Hacc & _ & Hfetch & _).
  pose proof (verify_payment_accepts_exactly_the_hmac Number_toString
                KEY_SECRET world services forged shop secret
                "order_1" "pay_abc" zeros eq_refl eq_refl eq_refl eq_refl
                Ho Hp Hz) as (_ & Hrej & _ & Hquiet).
  refine (conj _ (conj _ _)).
  - exact (conj eq_refl (conj eq_refl (conj eq_refl (conj eq_refl
             (conj eq_refl (conj Ho (conj Hp (conj He Hz)))))))).
  - exact (conj eq_refl (conj (proj2 Hacc eq_refl) (Hfetch eq_refl))).
  - exact (conj Hneq (conj (proj2 Hrej Hneq) (Hquiet Hneq))).
Defined.

Lemma verify_payment_missing_metadata_witness :
  let req_body := genuine "order_2" in
  let order := snd (paid_order "order_2" []) in
  let r := run services (V2.verify_payment Number_toString KEY_SECRET req_body)
             shop in
  (truthy (field req_body "razorpay_order_id") = true
   /\ truthy (field req_body "razorpay_payment_id") = true
   /\ truthy (field req_body "razorpay_signature") = true
   /\ signed_data Number_toString (field req_body "razorpay_order_id")
        (field req_body "razorpay_payment_id") = Some "order_2|pay_abc"
   /\ field req_body "razorpay_signature"
      = VStr (Crypto.hmac_sha256_hex secret "order_2|pay_abc")
   /\ upstream services (OrdersFetch (field req_body "razorpay_order_id")) shop
      = (Fulfilled order, shop)
   /\ metadata_complete order = false)
  /\ result r = Returned (failure 500 "Missing metadata")
  /\ calls (trace r) = [OrdersFetch (field req_body "razorpay_order_id")]
  /\ existsb is_lookup (calls (trace r)) = false
  /\ existsb is_insert (calls (trace r)) = false
  /\ final r = shop.
Proof.
  intros req_body order r.
  split; [repeat split|].
  exact (verify_payment_missing_metadata Number_toString KEY_SECRET world
           services req_body shop shop secret "order_2|pay_abc" order
           eq_refl eq_refl eq_refl eq_refl eq_refl eq_refl eq_refl eq_refl).
Defined.

Lemma versions_differ_on_valid_signature_witness :
  let req_body := genuine "order_1" in
  let order_id := field req_body "razorpay_order_id" in
  let r1 := run services (V1.verify_payment Number_toString KEY_SECRET req_body)
              shop in
  let r2 := run services (V2.verify_payment Number_toString KEY_SECRET req_body)
              shop in
  (truthy order_id = true
   /\ truthy (field req_body "razorpay_payment_id") = true
   /\ truthy (field req_body "razorpay_signature") = true
   /\ signed_data Number_toString order_id
        (field req_body "razorpay_payment_id") = Some "order_1|pay_abc"
   /\ field req_body "razorpay_signature"
      = VStr (Crypto.hmac_sha256_hex secret "order_1|pay_abc")
   /\ result r2 = Returned success)
  /\ (result r1 = Returned success /\ calls (trace r1) = [] /\ final r1 = shop)
  /\ hd_error (calls (trace r2)) = Some (OrdersFetch order_id)
  /\ exists slug row,
       calls (trace r2)
       = [OrdersFetch order_id; CoursesBySlug slug; UserCoursesInsert row].
Proof.
  intros req_body order_id r1 r2.
  assert (H2 : result r2 = Returned success) by (vm_compute; reflexivity).
  split; [repeat split; exact H2|].
  destruct (versions_differ_on_valid_signature Number_toString KEY_SECRET world
              services req_body shop secret "order_1|pay_abc"
              eq_refl eq_refl eq_refl eq_refl eq_refl eq_refl)
    as (V1 & Hfetch & Hall).
  exact (conj V1 (conj Hfetch (Hall H2))).
Defined.


Lemma duplicate_grant_is_success_witness :
  let req_body := genuine "order_1" in
  let handler := V2.verify_payment Number_toString KEY_SECRET req_body in
  let row := VObj [("user_id", VStr "u123"); ("course_id", int 7)] in
  let conflict := VObj [("code", VStr "23505")] in
  let denial := VObj [("code", VStr "42501")] in
  let refused e := Fulfilled (VObj [("data", VNull); ("error", e)]) in
  let reason := VObj [("message", VStr "fetch failed")] in
  let first := run services handler shop in
  let second := run services handler (final first) in
  let denied := run read_only handler shop in
  let lost := run unreachable handler shop in
  (In (Called (UserCoursesInsert row) (refused conflict)) (trace second)
   /\ truthy conflict = true
   /\ get_opt conflict "code" = VStr "23505"
   /\ result second = Returned success)
  /\ (In (Called (UserCoursesInsert row) (refused denial)) (trace denied)
      /\ truthy denial = true
      /\ get_opt denial "code" <> VStr "23505"
      /\ result denied = Returned (failure 500 "Could not grant access"))
  /\ (In (Called (UserCoursesInsert row) (Rejected reason)) (trace lost)
      /\ result lost
         = Returned (failure 500 "Server error verifying payment"))
  /\ ((grants (VStr "u123") (int 7) shop <= 1)%nat
      /\ result first = Returned success
      /\ result second = Returned success
      /\ grants (VStr "u123") (int 7) (final second) = 1%nat).
Proof.
  intros req_body handler row conflict denial refused reason first second
    denied lost.
  pose proof (duplicate_grant_is_success Number_toString KEY_SECRET)
    as [Herr Htwice].
  assert (H1 : In (Called (UserCoursesInsert row) (refused conflict))
                 (trace second))
    by (vm_compute; repeat first [left; reflexivity | right]).
  assert (H2 : In (Called (UserCoursesInsert row) (refused denial))
                 (trace denied))
    by (vm_compute; repeat first [left; reflexivity | right]).
  assert (H3 : In (Called (UserCoursesInsert row) (Rejected reason))
                 (trace lost))
    by (vm_compute; repeat first [left; reflexivity | right]).
  assert (H4 : get_opt denial "code" <> VStr "23505") by discriminate.
  assert (H5 : (grants (VStr "u123") (int 7) shop <= 1)%nat)
    by (vm_compute; lia).
  split; [|split; [|split]].
  - refine (conj H1 (conj eq_refl (conj eq_refl _))).
    exact (proj1 (proj1 (Herr world services req_body (final first) row)
                    _ conflict H1 eq_refl eq_refl) eq_refl).
  - refine (conj H2 (conj eq_refl (conj H4 _))).
    exact (proj2 (proj1 (Herr world read_only req_body shop row)
                    _ denial H2 eq_refl eq_refl) H4).
  - refine (conj H3 _).
    exact (proj2 (Herr world unreachable req_body shop row) reason H3).
  - refine (conj H5 _).
    exact (Htwice req_body shop secret "order_1|pay_abc" "order_1"
             (snd (paid_order "order_1"
                     [("course_slug", VStr "intro-ts");
                      ("user_id", VStr "u123")]))
             (VStr "intro-ts") (VStr "u123") intro_ts
             eq_refl eq_refl eq_refl eq_refl eq_refl eq_refl
             ltac:(discriminate) eq_refl eq_refl eq_refl eq_refl eq_refl
             eq_refl H5).
Defined.

Lemma create_order_metadata_from_arguments_witness :
  let r := run services (V2.create_order Number_toString purchase) empty_shop in
  let order := snd (paid_order "order_1"
                      [("course_slug", VStr "intro-ts");
                       ("user_id", VStr "u123")]) in
  let options :=
    VObj [("amount", int 50000); ("currency", VStr "INR");
          ("receipt", VStr "rcpt_1");
          ("notes", VObj [("course_slug", VStr "intro-ts");
                          ("user_id", VStr "u123")])] in
  (In (Called (OrdersCreate options) (Fulfilled order)) (trace r)
   /\ exists notes,
        get options "notes" = inl (VObj notes)
        /\ field notes "course_slug" = field purchase "course_slug"
        /\ field notes "user_id" = field purchase "user_id")
  /\ (result r = Returned {| status := 200; body := order |}
      /\ exists options',
           In (Called (OrdersCreate options') (Fulfilled order)) (trace r)).
Proof.
  intros r order options.
  assert (H1 : In (Called (OrdersCreate options) (Fulfilled order)) (trace r))
    by (vm_compute; right; left; reflexivity).
  assert (H2 : result r = Returned {| status := 200; body := order |})
    by (vm_compute; reflexivity).
  split.
  - refine (conj H1 _).
    exact (proj1 (create_order_metadata_from_arguments Number_toString world
                    services purchase empty_shop) options _ H1).
  - refine (conj H2 _).
    exact (proj2 (create_order_metadata_from_arguments Number_toString world
                    services purchase empty_shop) _ H2 eq_refl).
Defined.

Lemma presence_is_truthiness_witness :
  let free := [("amount", VNum (S754_zero false));
               ("course_slug", VStr "intro-ts"); ("user_id", VStr "u123")] in
  let unsigned := confirmation "order_1" "" in
  let created := run services (V2.create_order Number_toString free) shop in
  let created' :=
    run services (V2.create_order Number_toString (remove "amount" free))
      shop in
  let verified :=
    run services (V2.verify_payment Number_toString KEY_SECRET unsigned)
      shop in
  let verified' :=
    run services
      (V2.verify_payment Number_toString KEY_SECRET
         (remove "razorpay_signature" unsigned)) shop in
  (zero (field free "amount")
   /\ result created
      = Returned (error_only 400
                    "Amount, course_slug and user_id are required")
   /\ calls (trace created) = []
   /\ result created' = result created
   /\ calls (trace created') = [])
  /\ (field unsigned "razorpay_signature" = VStr ""
      /\ result verified = Returned (failure 400 "Missing payment details")
      /\ calls (trace verified) = []
      /\ verified' = verified).
Proof.
  intros free unsigned created created' verified verified'.
  assert (H1 : zero (field free "amount")) by (exists false; reflexivity).
  split.
  - refine (conj H1 _).
    exact (proj1 (presence_is_truthiness Number_toString KEY_SECRET world
                    services free shop "amount")
             (or_introl eq_refl) (or_intror (conj eq_refl H1))).
  - refine (conj eq_refl _).
    exact (proj2 (presence_is_truthiness Number_toString KEY_SECRET world
                    services unsigned shop "razorpay_signature")
             (or_intror (or_intror (or_introl eq_refl))) eq_refl).
Defined.

(** The answer to a paid order whose course_slug matches no course is not of
    the shape [{success: false, message}]: it also holds [slug_received], a
    value read from the notes of the gateway's order. *)
Lemma course_not_found_echoes_slug :
  let r := run services
             (V2.verify_payment Number_toString KEY_SECRET (genuine "order_3"))
             shop in
  result r
  = Returned {| status := 500;
                body := VObj [("success", VBool false);
                              ("message", VStr "Course not found");
                              ("slug_received", VStr "ghost")] |}
  /\ ~ failure_shape
         (VObj [("success", VBool false);
                ("message", VStr "Course not found");
                ("slug_received", VStr "ghost")])
  /\ metadata (snd (paid_order "order_3"
                      [("course_slug", VStr "ghost");
                       ("user_id", VStr "u123")]))
     = Some (VStr "ghost", VStr "u123").
Proof.
  intros r. split; [vm_compute; reflexivity|]. split; [|reflexivity].
  intros [message H]. discriminate H.
Qed.

(** *** The purchase from end to end *)

(** An order created for amount 50000, course [intro-ts] and user [u123]
    carries that course and that user in its notes, whatever the caller put
    in [notes]; a confirmation signed for it is accepted and leaves exactly
    one grant row; the same confirmation sent again is accepted again and
    the row is still the only one. *)
Example purchase_then_confirm_twice :
  let created := create_order_v2 purchase empty_shop in
  let first := verify_payment_v2 (genuine "order_1") (final created) in
  let second := verify_payment_v2 (genuine "order_1") (final first) in
  orders (final created)
  = [paid_order "order_1"
       [("course_slug", VStr "intro-ts"); ("user_id", VStr "u123")]]
  /\ result first = Returned success
  /\ result second = Returned success
  /\ user_courses (final first) = [(VStr "u123", int 7)]
  /\ user_courses (final second) = [(VStr "u123", int 7)].
Proof. vm_compute. repeat split. Qed.

(** A forged confirmation grants nothing, in the second version and in the
    first. *)
Example forged_confirmation_is_refused :
  result (verify_payment_v2 forged shop)
  = Returned (failure 400 "Invalid signature")
  /\ user_courses (final (verify_payment_v2 forged shop)) = []
  /\ result (verify_payment_v1 forged shop)
     = Returned (failure 400 "Invalid signature").
Proof. vm_compute. repeat split. Qed.

(* ------------------------------------------------------------------------- *)
(** ** Further properties of the handlers *)

Import Flow.

Lemma in_trace_calls (c : call) (r : settled) (tr : list entry) :
  In (Called c r) tr -> In c (calls tr).
Proof.
  induction tr as [| e tr IH]; [contradiction|].
  intros [-> | H]; cbn; [now left|].
  destruct e; auto. right. now apply IH.
Qed.

Lemma authentic_concat nts key (req_body : object) :
  authentic nts key req_body ->
  exists k prefix data,
    key = Some k
    /\ truthy (field req_body "razorpay_order_id") = true
    /\ truthy (field req_body "razorpay_payment_id") = true
    /\ truthy (field req_body "razorpay_signature") = true
    /\ concat nts (field req_body "razorpay_order_id") (VStr "|") = inl prefix
    /\ concat nts (VStr prefix) (field req_body "razorpay_payment_id")
       = inl data
    /\ strict_eq_string (field req_body "razorpay_signature")
         (Crypto.hmac_sha256_hex k data) = true.
Proof.
  intros (Ho & Hp & Hs & k & data & Hk & Hd & Heq).
  apply signed_data_concat in Hd as (prefix & Hc1 & Hc2).
  apply strict_eq_string_true in Heq. now exists k, prefix, data.
Qed.

Lemma concat_number nts (a : string) (t : spec_float) :
  concat nts (VStr a) (VNum t) = inl (a ++ nts t).
Proof. reflexivity. Qed.

Lemma get_not_nullish (v x : value) (k : string) :
  get v k = inl x -> nullish v = false.
Proof. destruct v; cbn; intros H; try discriminate H; reflexivity. Qed.

Lemma lookup_fold_set (k : string) (props acc : object) :
  NoDup (map fst props) ->
  lookup k (fold_left (fun a kv => set (fst kv) (snd kv) a) props acc)
  = match lookup k props with
    | Some v => Some v
    | None => lookup k acc
    end.
Proof.
  revert acc. induction props as [| [k' v'] props IH]; intros acc Hnd;
    [reflexivity|].
  cbn in *. inversion Hnd as [| ? ? Hnotin Hnd']; subst.
  rewrite IH by assumption.
  destruct (String.eqb_spec k k') as [-> | Hneq].
  - assert (Hnone : lookup k' props = None).
    { clear -Hnotin. induction props as [| [k'' v''] props IHp];
        [reflexivity|].
      cbn in *. destruct (String.eqb_spec k' k''); [subst; tauto|].
      apply IHp. tauto. }
    rewrite Hnone. apply lookup_set_same.
  - destruct (lookup k props); [reflexivity|].
    now apply lookup_set_other.
Qed.

(** [{...o}] of an object with distinct keys reads as [o] does. *)
Lemma field_spread (props : object) (k : string) :
  NoDup (map fst props) -> field (spread (VObj props)) k = field props k.
Proof.
  intros Hnd. unfold field, spread. cbn. rewrite lookup_fold_set by assumption.
  destruct (lookup k props); reflexivity.
Qed.

Section Flows.

Variable Number_toString : spec_float -> string.
Variable KEY_SECRET : option string.
Variable W : Type.
Variable E : environment W.

Local Opaque concat Crypto.hmac_sha256_hex.

(** Past the signature check. *)
Ltac pass_check H :=
  apply authentic_concat in H
    as (?k & ?prefix & ?data & ?Hk & ?Ho & ?Hp & ?Hs & ?Hc1 & ?Hc2 & ?Heq);
  repeat match goal with
    | Hx : truthy _ = true |- _ => rewrite Hx
    | Hx : KEY_SECRET = Some _ |- _ => rewrite Hx
    end;
  cbn;
  repeat match goal with
    | Hx : concat _ _ _ = inl _ |- _ => rewrite Hx; cbn
    end;
  repeat match goal with
    | Hx : strict_eq_string _ _ = true |- _ => rewrite Hx; cbn
    end.

Ltac in_leaf H :=
  cbn in H; repeat (destruct H as [H | H]; [try discriminate H|]);
  try contradiction.

(** *** The signature check on arbitrary JSON values *)

Lemma accepted_iff_authentic (req_body : object) (w : W) :
  let r := run E (V2.verify_payment Number_toString KEY_SECRET req_body) w in
  accepted (trace r) = true <-> authentic Number_toString KEY_SECRET req_body.
Proof.
  intros r; subst r. split.
  - unfold V2.verify_payment, authentic. explore; try discriminate.
    all: intros _; repeat split; trivial; eexists _, _; split;
      [reflexivity|]; split;
      [ eapply concat_signed_data; eassumption
      | now apply strict_eq_string_true ].
  - intros H. unfold V2.verify_payment. pass_check H. reflexivity.
Qed.

(** X1. Whatever JSON values the three fields hold, the second version lets a
    confirmation through (prints [PAYMENT VERIFIED:]) exactly when the three
    are truthy, the secret is set and the signature is the string holding the
    HMAC of the two ids as [+] prints them; it then fetches the order under
    the order id as it was sent. *)
Theorem verify_payment_accepts_iff_authentic (req_body : object) (w : W) :
  let r := run E (V2.verify_payment Number_toString KEY_SECRET req_body) w in
  (accepted (trace r) = true <-> authentic Number_toString KEY_SECRET req_body)
  /\ (authentic Number_toString KEY_SECRET req_body ->
      hd_error (calls (trace r))
      = Some (OrdersFetch (field req_body "razorpay_order_id"))).
Proof.
  intros r. split; [apply accepted_iff_authentic|].
  intros H. subst r. unfold V2.verify_payment. pass_check H.
  destruct (upstream E _ w) as [answer w']. reflexivity.
Qed.

(** X2. Acceptance looks at the ids only through their printed form: two
    requests with the same signature whose order ids print alike and whose
    payment ids print alike (a string and the one-element array holding it,
    say) are accepted or refused together. *)
Theorem acceptance_sees_printed_ids (req_body req_body' : object) (w w' : W) :
  let order_id := field req_body "razorpay_order_id" in
  let payment_id := field req_body "razorpay_payment_id" in
  let order_id' := field req_body' "razorpay_order_id" in
  let payment_id' := field req_body' "razorpay_payment_id" in
  truthy order_id = true -> truthy payment_id = true ->
  truthy order_id' = true -> truthy payment_id' = true ->
  to_string Number_toString order_id = to_string Number_toString order_id' ->
  to_string Number_toString payment_id
  = to_string Number_toString payment_id' ->
  field req_body "razorpay_signature" = field req_body' "razorpay_signature" ->
  accepted (trace (run E (V2.verify_payment Number_toString KEY_SECRET
                            req_body) w))
  = accepted (trace (run E (V2.verify_payment Number_toString KEY_SECRET
                              req_body') w')).
Proof.
  intros order_id payment_id order_id' payment_id' Ho Hp Ho' Hp' Hso Hsp Hsig.
  assert (Hiff : authentic Number_toString KEY_SECRET req_body
                 <-> authentic Number_toString KEY_SECRET req_body').
  { unfold authentic, signed_data. fold order_id payment_id order_id' payment_id'.
    rewrite Ho, Hp, Ho', Hp', Hso, Hsp, Hsig. reflexivity. }
  pose proof (accepted_iff_authentic req_body w) as H1.
  pose proof (accepted_iff_authentic req_body' w') as H2. cbv zeta in H1, H2.
  destruct (accepted _); destruct (accepted _); try reflexivity.
  - symmetry. apply H2, Hiff, H1. reflexivity.
  - apply H1, Hiff, H2. reflexivity.
Qed.

(** *** What the grant step does *)

Ltac pick_entry := cbn; repeat first [left; reflexivity | right].

Ltac leaf_row :=
  let H := fresh "H" in
  intros ? ? H; in_leaf H;
  (injection H as ? ?; subst;
   repeat match goal with
     | Hx : get ?v ?k = _, T : truthy ?v = true |- _ =>
         rewrite (truthy_get v k T) in Hx; injection Hx as Hx; subst
     end;
   eexists _, _, _, _, _;
   split; [pick_entry|];
   split; [unfold metadata;
           match goal with Hx : get _ "notes" = _ |- _ => rewrite Hx end;
           reflexivity|];
   split; [pick_entry|];
   split; [eassumption|];
   split; [eexists; split; eassumption|];
   split; [assumption|];
   split; [assumption|];
   reflexivity).

(** X3. The row a run inserts into [user_courses] is made of the user_id in
    the notes of the order the gateway returned for the request's order id,
    and of the id of the course the store returned for the course_slug in
    those notes; that course is truthy and came without an error. *)
Theorem grant_row_provenance (req_body : object) (w : W) :
  let r := run E (V2.verify_payment Number_toString KEY_SECRET req_body) w in
  forall row answer,
    In (Called (UserCoursesInsert row) answer) (trace r) ->
    exists order slug user_id found course,
      In (Called (OrdersFetch (field req_body "razorpay_order_id"))
                 (Fulfilled order)) (trace r)
      /\ metadata order = Some (slug, user_id)
      /\ In (Called (CoursesBySlug slug) (Fulfilled found)) (trace r)
      /\ get found "data" = inl course
      /\ (exists courseError,
            get found "error" = inl courseError
            /\ truthy courseError = false)
      /\ truthy course = true
      /\ truthy user_id = true
      /\ row = grant_row user_id course.
Proof.
  intros r; subst r. unfold V2.verify_payment.
  explore; leaf_row.
Qed.

Ltac unify_reads :=
  repeat match goal with
    | Hx : ?t = inl ?x, Hy : ?t = inl ?y |- _ =>
        assert_fails (constr_eq x y);
        assert (x = y) by congruence; (subst x || subst y)
    end.

(** X4. When the store answers the course lookup with an error, or with no
    course, the request ends with 500 [Course not found] carrying the slug
    that was looked up, the store's error goes to the console only, and the
    grant insert is not attempted. *)
Theorem course_not_found_grants_nothing (req_body : object) (w : W)
  (slug found course courseError : value) :
  let r := run E (V2.verify_payment Number_toString KEY_SECRET req_body) w in
  In (Called (CoursesBySlug slug) (Fulfilled found)) (trace r) ->
  get found "data" = inl course ->
  get found "error" = inl courseError ->
  truthy courseError || negb (truthy course) = true ->
  result r = Returned (course_not_found slug)
  /\ existsb is_insert (calls (trace r)) = false
  /\ In (Printed Error [VStr "Course not found:"; courseError]) (trace r).
Proof.
  intros r HIn Hd He Ht; revert HIn; subst r. unfold V2.verify_payment.
  explore; intros H; in_leaf H;
    (injection H as ? ?; subst; unify_reads;
     first
       [ congruence
       | repeat match goal with
           | T : truthy _ = _ |- _ => rewrite T in Ht
           end;
         first [ discriminate Ht
               | split; [reflexivity|]; split; [reflexivity|]; pick_entry ] ]).
Qed.

(** X5. An upstream call that is rejected (the gateway or the store cannot be
    reached, say) ends the request: the answer is 500
    [Server error verifying payment], the reason goes to the console only,
    and the rejected call is the last upstream call of the run. *)
Theorem upstream_rejection_ends_request (req_body : object) (w : W)
  (c : call) (reason : value) :
  let r := run E (V2.verify_payment Number_toString KEY_SECRET req_body) w in
  In (Called c (Rejected reason)) (trace r) ->
  result r = Returned (failure 500 "Server error verifying payment")
  /\ In (caught_line "Verify error:" reason) (trace r)
  /\ hd_error (rev (calls (trace r))) = Some c.
Proof.
  intros r; subst r. unfold V2.verify_payment.
  explore; intros H; in_leaf H;
    (injection H as ? ?; subst; split; [reflexivity|]; split;
     [unfold caught_line; pick_entry | reflexivity]).
Qed.

(** X6. The answer [{success: true}] is given only after the grant insert
    was awaited and fulfilled, and its result held no error or the error
    with code [23505]. *)
Theorem success_means_granted (req_body : object) (w : W) :
  let r := run E (V2.verify_payment Number_toString KEY_SECRET req_body) w in
  result r = Returned success ->
  exists row inserted ucError,
    In (Called (UserCoursesInsert row) (Fulfilled inserted)) (trace r)
    /\ get inserted "error" = inl ucError
    /\ (truthy ucError = false \/ get_opt ucError "code" = VStr "23505").
Proof.
  intros r; subst r. unfold V2.verify_payment.
  explore; intros H; try discriminate H;
    (eexists _, _, _; split; [pick_entry|]; split; [eassumption|];
     first [ left; assumption
           | right;
             repeat match goal with
               | Hx : get ?v ?k = _, T : truthy ?v = true |- _ =>
                   rewrite (truthy_get v k T) in Hx; injection Hx as Hx; subst
               | Hx : strict_eq_string _ _ = true |- _ =>
                   apply strict_eq_string_true in Hx
               end; assumption ]).
Qed.

(** X7. On a signature mismatch both versions write the signature they
    expected, that is the valid signature for the two ids, to the console
    next to the one supplied; it is the only thing the run does. *)
Theorem mismatch_prints_expected_signature (req_body : object) (w : W)
  (key data : string) :
  let signature := field req_body "razorpay_signature" in
  truthy (field req_body "razorpay_order_id") = true ->
  truthy (field req_body "razorpay_payment_id") = true ->
  truthy signature = true ->
  KEY_SECRET = Some key ->
  signed_data Number_toString (field req_body "razorpay_order_id")
    (field req_body "razorpay_payment_id") = Some data ->
  signature <> VStr (Crypto.hmac_sha256_hex key data) ->
  trace (run E (V1.verify_payment Number_toString KEY_SECRET req_body) w)
  = [mismatch_line (Crypto.hmac_sha256_hex key data) signature]
  /\ trace (run E (V2.verify_payment Number_toString KEY_SECRET req_body) w)
     = [mismatch_line (Crypto.hmac_sha256_hex key data) signature].
Proof.
  intros signature Ho Hp Hs Hk Hd Hneq. subst signature.
  apply signed_data_concat in Hd as (prefix & Hc1 & Hc2).
  apply strict_eq_string_false in Hneq.
  unfold V1.verify_payment, V2.verify_payment.
  rewrite Ho, Hp, Hs, Hk. cbn. rewrite Hc1. cbn. rewrite Hc2. cbn.
  rewrite Hneq. cbn. split; reflexivity.
Qed.

(** X8. With the secret not set, no confirmation can be verified: a request
    with its three fields present is answered 500
    [Server error verifying payment] by both versions, without any upstream
    call. *)
Theorem unset_secret_fails_every_confirmation (req_body : object) (w : W)
  (data : string) :
  KEY_SECRET = None ->
  truthy (field req_body "razorpay_order_id") = true ->
  truthy (field req_body "razorpay_payment_id") = true ->
  truthy (field req_body "razorpay_signature") = true ->
  signed_data Number_toString (field req_body "razorpay_order_id")
    (field req_body "razorpay_payment_id") = Some data ->
  let r1 := run E (V1.verify_payment Number_toString KEY_SECRET req_body) w in
  let r2 := run E (V2.verify_payment Number_toString KEY_SECRET req_body) w in
  (result r1 = Returned (failure 500 "Server error verifying payment")
   /\ calls (trace r1) = [] /\ final r1 = w)
  /\ (result r2 = Returned (failure 500 "Server error verifying payment")
      /\ calls (trace r2) = [] /\ final r2 = w).
Proof.
  intros Hk Ho Hp Hs Hd r1 r2. subst r1 r2.
  apply signed_data_concat in Hd as (prefix & Hc1 & Hc2).
  unfold V1.verify_payment, V2.verify_payment.
  rewrite Ho, Hp, Hs, Hk. cbn. rewrite Hc1. cbn. rewrite Hc2. cbn.
  repeat split.
Qed.

(** X9. The first version's verify-payment never reaches the gateway or the
    store, whatever the request: its run makes no upstream call and leaves
    the world as it was; it answers [{success: true}] exactly when the
    confirmation is authentic. *)
Theorem v1_verify_payment_is_local (req_body : object) (w : W) :
  let r := run E (V1.verify_payment Number_toString KEY_SECRET req_body) w in
  calls (trace r) = []
  /\ final r = w
  /\ (result r = Returned success
      <-> authentic Number_toString KEY_SECRET req_body).
Proof.
  intros r; subst r. split; [|split].
  - unfold V1.verify_payment. explore; reflexivity.
  - unfold V1.verify_payment. explore; reflexivity.
  - split.
    + unfold V1.verify_payment, authentic. explore; intros H;
        try discriminate H;
        (repeat split; trivial; eexists _, _; split; [reflexivity|]; split;
         [ eapply concat_signed_data; eassumption
         | now apply strict_eq_string_true ]).
    + intros H. unfold V1.verify_payment. pass_check H. reflexivity.
Qed.

(** X10. A grant insert that is fulfilled without an error is always reported
    as success: no run records a grant and then answers with a failure. *)
Theorem fulfilled_insert_means_success (req_body : object) (w : W)
  (row inserted ucError : value) :
  let r := run E (V2.verify_payment Number_toString KEY_SECRET req_body) w in
  In (Called (UserCoursesInsert row) (Fulfilled inserted)) (trace r) ->
  get inserted "error" = inl ucError ->
  truthy ucError = false ->
  result r = Returned success.
Proof.
  intros r HIn Hg Ht; revert HIn; subst r. unfold V2.verify_payment.
  explore; intros H; in_leaf H;
    (injection H as ? ?; subst; unify_reads;
     first [reflexivity | congruence]).
Qed.

(** *** Order creation *)

(** X11. When the gateway rejects the order, both versions answer 500
    [{error: "Unable to create order"}]; the gateway's reason goes to the
    console only. *)
Theorem create_order_gateway_failure (req_body : object) (w : W)
  (options reason : value) :
  let r1 := run E (V1.create_order Number_toString req_body) w in
  let r2 := run E (V2.create_order Number_toString req_body) w in
  (In (Called (OrdersCreate options) (Rejected reason)) (trace r1) ->
   result r1 = Returned (error_only 500 "Unable to create order")
   /\ In (caught_line "Create order error:" reason) (trace r1))
  /\ (In (Called (OrdersCreate options) (Rejected reason)) (trace r2) ->
      result r2 = Returned (error_only 500 "Unable to create order")
      /\ In (caught_line "Create order error:" reason) (trace r2)).
Proof.
  intros r1 r2; subst r1 r2. split.
  - unfold V1.create_order. explore; intros H; in_leaf H;
      (injection H as ? ?; subst; split;
       [reflexivity | unfold caught_line; pick_entry]).
  - unfold V2.create_order. explore; intros H; in_leaf H;
      (injection H as ? ?; subst; split;
       [reflexivity | unfold caught_line; pick_entry]).
Qed.

(** X12. The second version's create-order has three kinds of answer: the 400
    for an incomplete request, the 500 [Unable to create order], and 200
    with, as its body, the very order the gateway returned, which is then
    neither [null] nor [undefined]. *)
Theorem create_order_response_bodies (req_body : object) (w : W) :
  let r := run E (V2.create_order Number_toString req_body) w in
  exists resp,
    result r = Returned resp
    /\ (resp = error_only 400 "Amount, course_slug and user_id are required"
        \/ resp = error_only 500 "Unable to create order"
        \/ (status resp = 200
            /\ nullish (body resp) = false
            /\ exists options,
                 In (Called (OrdersCreate options) (Fulfilled (body resp)))
                    (trace r))).
Proof.
  intros r; subst r. unfold V2.create_order.
  explore; eexists; (split; [reflexivity|]);
    first [ left; reflexivity
          | right; left; reflexivity
          | right; right; split; [reflexivity|]; split;
            [ eapply get_not_nullish; eassumption
            | eexists; pick_entry ] ].
Qed.

(** X13. A create-order request with its three fields present always reaches
    the gateway, once; an incomplete one never does; and create-order makes
    no other upstream call. *)
Theorem create_order_calls_gateway_once (req_body : object) (w : W) :
  let r := run E (V2.create_order Number_toString req_body) w in
  let complete :=
    truthy (field req_body "amount")
    && truthy (field req_body "course_slug")
    && truthy (field req_body "user_id") in
  (complete = true -> exists options, calls (trace r) = [OrdersCreate options])
  /\ (complete = false -> calls (trace r) = []).
Proof.
  intros r complete; subst r complete. unfold V2.create_order.
  explore; (split; intros H; try discriminate H);
    try reflexivity; try (eexists; reflexivity).
  all: rewrite concat_number in *; discriminate.
Qed.

Lemma create_order_options_shape (req_body : object) (w : W)
  (options : value) (answer : settled) :
  let r := run E (V2.create_order Number_toString req_body) w in
  In (Called (OrdersCreate options) answer) (trace r) ->
  exists receipt',
    options
    = VObj [("amount", field req_body "amount");
            ("currency",
             match field req_body "currency" with
             | VUndefined => VStr "INR"
             | c => c
             end);
            ("receipt", receipt');
            ("notes",
             VObj (set "user_id" (field req_body "user_id")
                     (set "course_slug" (field req_body "course_slug")
                        (spread (field req_body "notes")))))]
    /\ (if truthy (field req_body "receipt")
        then receipt' = field req_body "receipt"
             /\ clock_reads (trace r) = []
        else exists t,
               clock_reads (trace r) = [t]
               /\ receipt' = VStr ("order_rcpt_" ++ Number_toString t)).
Proof.
  intros r; subst r. unfold V2.create_order.
  explore; intros H; in_leaf H;
    (injection H as ? ?; subst;
     try rewrite concat_number in *;
     repeat match goal with
       | Hx : inl _ = inl _ |- _ => injection Hx as Hx; subst
       end;
     eexists; split; [reflexivity|];
     first [ split; reflexivity | eexists; split; reflexivity ]).
Qed.

(** X14. What a create-order request sends to the gateway: the amount as it
    came; the currency as it came, [INR] only when the field is absent; the
    receipt as it came when it is truthy, without reading the clock, and
    otherwise [order_rcpt_] followed by the one clock reading of the run. *)
Theorem create_order_options_sent (req_body : object) (w : W)
  (options : value) (answer : settled) :
  let r := run E (V2.create_order Number_toString req_body) w in
  let receipt := field req_body "receipt" in
  In (Called (OrdersCreate options) answer) (trace r) ->
  get options "amount" = inl (field req_body "amount")
  /\ (field req_body "currency" = VUndefined ->
      get options "currency" = inl (VStr "INR"))
  /\ (field req_body "currency" <> VUndefined ->
      get options "currency" = inl (field req_body "currency"))
  /\ (truthy receipt = true ->
      get options "receipt" = inl receipt /\ clock_reads (trace r) = [])
  /\ (truthy receipt = false ->
      exists t,
        clock_reads (trace r) = [t]
        /\ get options "receipt"
           = inl (VStr ("order_rcpt_" ++ Number_toString t))).
Proof.
  intros r receipt H. subst receipt.
  destruct (create_order_options_shape req_body w options answer H)
    as (receipt' & -> & Hr). fold r in Hr.
  split; [reflexivity|]. split; [intros ->; reflexivity|].
  split; [intros Hc; cbn; destruct (field req_body "currency"); congruence|].
  destruct (truthy (field req_body "receipt")); split; intros Ht;
    try discriminate Ht.
  - destruct Hr as [-> Hc]. split; [reflexivity|exact Hc].
  - destruct Hr as (t & Hc & ->). exists t. split; [exact Hc|reflexivity].
Qed.

(** X15. The notes the caller sent with a create-order request are kept: in
    the second version every key of a [notes] object other than course_slug
    and user_id reaches the gateway with its value; the first version sends
    truthy [notes] untouched, so there a course_slug inside [notes] is the
    one the order carries. *)
Theorem create_order_keeps_caller_notes (req_body : object) (w : W)
  (options : value) (answer : settled) :
  let r1 := run E (V1.create_order Number_toString req_body) w in
  let r2 := run E (V2.create_order Number_toString req_body) w in
  (In (Called (OrdersCreate options) answer) (trace r2) ->
   forall props k,
     field req_body "notes" = VObj props ->
     NoDup (map fst props) ->
     k <> "course_slug" -> k <> "user_id" ->
     get_opt (get_opt options "notes") k = field props k)
  /\ (In (Called (OrdersCreate options) answer) (trace r1) ->
      truthy (field req_body "notes") = true ->
      get_opt options "notes" = field req_body "notes").
Proof.
  intros r1 r2. split.
  - intros H props k Hn Hnd Hk1 Hk2.
    destruct (create_order_options_shape req_body w options answer H)
      as (receipt' & -> & _).
    cbn. unfold field at 1.
    rewrite !lookup_set_other by congruence.
    rewrite Hn. now apply field_spread.
  - subst r1. unfold V1.create_order.
    explore; intros H; in_leaf H;
      (injection H as ? ?; subst; intros Hn; cbn; unfold or_else;
       first [ discriminate Hn
             | rewrite Hn; reflexivity
             | match goal with
               | T : truthy (field req_body "notes") = true |- _ => rewrite T
               end; reflexivity ]).
Qed.

End Flows.

(** *** Start of the process and the secret *)

(** X16. The warning about the gateway keys is printed whenever the secret is
    not set or empty.  After a start without warnings the secret is a
    non-empty string, and then a confirmation with its three fields present
    and printable ids is settled by the signature alone: it is accepted, or
    answered 400 [Invalid signature]. *)
Theorem quiet_start_settles_by_signature (env : Startup.variables) :
  (~ In Startup.razorpay_warning (Startup.warnings_v2 env) ->
   exists key, Startup.KEY_SECRET env = Some key /\ key <> "")
  /\ (Startup.warnings_v2 env = [] ->
      forall (Number_toString : spec_float -> string) (W : Type)
             (E : environment W) (req_body : object) (w : W) (data : string),
        truthy (field req_body "razorpay_order_id") = true ->
        truthy (field req_body "razorpay_payment_id") = true ->
        truthy (field req_body "razorpay_signature") = true ->
        signed_data Number_toString (field req_body "razorpay_order_id")
          (field req_body "razorpay_payment_id") = Some data ->
        let r := run E (V2.verify_payment Number_toString
                          (Startup.KEY_SECRET env) req_body) w in
        accepted (trace r) = true
        \/ result r = Returned (failure 400 "Invalid signature")).
Proof.
  assert (Hkey : ~ In Startup.razorpay_warning (Startup.warnings_v2 env) ->
                 exists key, Startup.KEY_SECRET env = Some key /\ key <> "").
  { unfold Startup.warnings_v2, Startup.KEY_SECRET.
    destruct env as [id [secret|] url role port]; cbn.
    - destruct (String.eqb_spec secret "") as [-> | Hne].
      + rewrite orb_true_r. cbn. tauto.
      + intros _. now exists secret.
    - rewrite orb_true_r. cbn. tauto. }
  split; [exact Hkey|].
  intros Hquiet nts W E req_body w data Ho Hp Hs Hd r.
  destruct Hkey as (key & Hk & _); [rewrite Hquiet; intros []|].
  destruct (strict_eq_string (field req_body "razorpay_signature")
              (Crypto.hmac_sha256_hex key data)) eqn:Heq.
  - left. apply accepted_iff_authentic. repeat split; trivial.
    exists key, data. repeat split; trivial.
    now apply strict_eq_string_true.
  - right. subst r.
    rewrite (verify_payment_checked nts (Startup.KEY_SECRET env) W E req_body
               w key data); trivial.
    now apply strict_eq_string_false.
Qed.

(** *** A purchase against the reference services *)

Lemma lookup_app_fresh (k : string) (v : value) (o : object) :
  lookup k o = None -> lookup k (o ++ [(k, v)])%list = Some v.
Proof.
  induction o as [| [k' v'] o IH]; cbn.
  - now rewrite String.eqb_refl.
  - destruct (k =? k'); [discriminate|exact IH].
Qed.

Section Purchase.

Import Backend.

Variable Number_toString : spec_float -> string.
Variable KEY_SECRET : option string.

Local Opaque Crypto.hmac_sha256_hex.

(** The order the reference gateway creates for a complete request: it is
    the answer, it is kept under a new id, and its notes hold the course and
    the user of the request. *)
Lemma create_order_on_services (purchase : object) (w : world) :
  let id := order_name (S (List.length (orders w))) in
  let slug := field purchase "course_slug" in
  let user_id := field purchase "user_id" in
  truthy (field purchase "amount") = true ->
  truthy slug = true -> truthy user_id = true ->
  lookup id (orders w) = None ->
  let created := run services (V2.create_order Number_toString purchase) w in
  exists order,
    result created = Returned {| status := 200; body := order |}
    /\ get order "id" = inl (VStr id)
    /\ metadata order = Some (slug, user_id)
    /\ lookup id (orders (final created)) = Some order
    /\ courses (final created) = courses w
    /\ user_courses (final created) = user_courses w.
Proof.
  intros id slug user_id Ha Hc Hu Hfresh created.
  subst created slug user_id. unfold V2.create_order. rewrite Ha, Hc, Hu.
  cbn -[set spread order_name].
  destruct (truthy (field purchase "receipt")); cbn -[set spread order_name];
    (eexists; split; [reflexivity|]; split; [reflexivity|]; split;
     [ unfold metadata; cbn -[set spread]; unfold field;
       rewrite lookup_set_other, !lookup_set_same by discriminate;
       reflexivity
     | split; [now apply lookup_app_fresh|split; reflexivity] ]).
Qed.

(** X17. Against the reference gateway and store, a complete create-order
    request followed by a confirmation signed for the order it created ends
    in [{success: true}] with a grant recorded for the user of the request
    and the course its course_slug names: what create-order wrote into the
    order's notes is what verify-payment reads back. *)
Theorem purchase_round_trip (purchase confirmation : object) (w : world)
  (key data : string) (course : value) :
  let id := order_name (S (List.length (orders w))) in
  let slug := field purchase "course_slug" in
  let user_id := field purchase "user_id" in
  truthy (field purchase "amount") = true ->
  truthy slug = true -> truthy user_id = true ->
  lookup id (orders w) = None ->
  filter (has_slug slug) (courses w) = [course] ->
  truthy course = true ->
  KEY_SECRET = Some key ->
  field confirmation "razorpay_order_id" = VStr id ->
  truthy (field confirmation "razorpay_payment_id") = true ->
  truthy (field confirmation "razorpay_signature") = true ->
  signed_data Number_toString (VStr id)
    (field confirmation "razorpay_payment_id") = Some data ->
  field confirmation "razorpay_signature"
  = VStr (Crypto.hmac_sha256_hex key data) ->
  let created := run services (V2.create_order Number_toString purchase) w in
  let verified :=
    run services (V2.verify_payment Number_toString KEY_SECRET confirmation)
      (final created) in
  (exists order,
     result created = Returned {| status := 200; body := order |}
     /\ metadata order = Some (slug, user_id))
  /\ result verified = Returned success
  /\ grants user_id (get_opt course "id") (final verified)
     = Nat.max 1 (grants user_id (get_opt course "id") w).
Proof.
  intros id slug user_id Ha Hc Hu Hfresh Hcourse Htruthy Hk Ho Hp Hs Hd Heq
    created verified.
  destruct (create_order_on_services purchase w Ha Hc Hu Hfresh)
    as (order & Hres & Hid & Hmeta & Hstored & Hcourses & Hgrants).
  fold created in Hres, Hstored, Hcourses, Hgrants.
  destruct (grant_once Number_toString KEY_SECRET confirmation (final created)
              key data id order slug user_id course)
    as (R & _ & _ & G); trivial; try congruence.
  - subst id. discriminate.
  - fold verified in R, G. split; [now exists order|]. split; [exact R|].
    rewrite G. unfold grants. now rewrite Hgrants.
Qed.

End Purchase.

Section Untouched.

Import Backend.

Variable Number_toString : spec_float -> string.
Variable KEY_SECRET : option string.

Local Opaque concat Crypto.hmac_sha256_hex.

Ltac explore_services :=
  repeat (cbn in *; match goal with
   | |- context [truthy ?v] => destruct (truthy v) eqn:?
   | |- context [concat ?n ?a ?b] => destruct (concat n a b) eqn:?
   | |- context [get ?v ?k] => destruct (get v k) eqn:?
   | |- context [strict_eq_string ?v ?s] =>
       destruct (strict_eq_string v s) eqn:?
   | |- context [createHmac_sha256_hex ?key _] => destruct key eqn:?
   | |- context [lookup ?id (orders ?w)] => destruct (lookup id (orders w)) eqn:?
   | |- context [filter ?f (courses ?w)] =>
       destruct (filter f (courses w)) as [| ? [| ? ?]] eqn:?
   | |- context [existsb ?f (user_courses ?w)] =>
       destruct (existsb f (user_courses w)) eqn:?
   | |- context [match field ?b ?k with _ => _ end] =>
       destruct (field b k) eqn:?
   end); cbn in *.

(** X18. Against the reference services a verify-payment request changes
    nothing at the gateway and nothing in the course table, and it adds at
    most one grant row, which it does only when it answers
    [{success: true}]: a request that fails leaves no grant behind. *)
Theorem failed_confirmation_leaves_no_grant (req_body : object) (w : world) :
  let r := run services
             (V2.verify_payment Number_toString KEY_SECRET req_body) w in
  orders (final r) = orders w
  /\ courses (final r) = courses w
  /\ (user_courses (final r) = user_courses w
      \/ (result r = Returned success
          /\ exists row,
               user_courses (final r) = (user_courses w ++ [row])%list)).
Proof.
  intros r; subst r. unfold V2.verify_payment.
  explore_services.
  all: split; [reflexivity|]; split; [reflexivity|].
  all: first [ left; reflexivity
             | right; split; [reflexivity|]; eexists; reflexivity ].
Qed.

End Untouched.

(* ------------------------------------------------------------------------- *)
(** ** The further properties at work *)

Import Cases.

Lemma genuine_is_authentic :
  authentic Number_toString KEY_SECRET (genuine "order_1").
Proof.
  repeat split. exists secret, "order_1|pay_abc". repeat split.
Defined.

Lemma verify_payment_accepts_iff_authentic_witness :
  let r := run services
             (V2.verify_payment Number_toString KEY_SECRET (genuine "order_1"))
             shop in
  authentic Number_toString KEY_SECRET (genuine "order_1")
  /\ accepted (trace r) = true
  /\ hd_error (calls (trace r))
     = Some (OrdersFetch (field (genuine "order_1") "razorpay_order_id")).
Proof.
  intros r.
  pose proof (verify_payment_accepts_iff_authentic Number_toString KEY_SECRET
                world services (genuine "order_1") shop) as [Hiff Hfetch].
  exact (conj genuine_is_authentic
           (conj (proj2 Hiff genuine_is_authentic)
                 (Hfetch genuine_is_authentic))).
Defined.

Lemma acceptance_sees_printed_ids_witness :
  (truthy (field (genuine "order_1") "razorpay_order_id") = true
   /\ truthy (field array_confirmation "razorpay_order_id") = true
   /\ to_string Number_toString (field (genuine "order_1") "razorpay_order_id")
      = to_string Number_toString
          (field array_confirmation "razorpay_order_id")
   /\ field (genuine "order_1") "razorpay_signature"
      = field array_confirmation "razorpay_signature")
  /\ accepted (trace (run services
                        (V2.verify_payment Number_toString KEY_SECRET
                           (genuine "order_1")) shop))
     = accepted (trace (run services
                          (V2.verify_payment Number_toString KEY_SECRET
                             array_confirmation) shop)).
Proof.
  split; [repeat split|].
  exact (acceptance_sees_printed_ids Number_toString KEY_SECRET world services
           (genuine "order_1") array_confirmation shop shop
           eq_refl eq_refl eq_refl eq_refl eq_refl eq_refl eq_refl).
Defined.

Lemma grant_row_provenance_witness :
  let r := run services
             (V2.verify_payment Number_toString KEY_SECRET (genuine "order_1"))
             shop in
  let row := VObj [("user_id", VStr "u123"); ("course_id", int 7)] in
  let answer := Fulfilled (VObj [("data", VNull); ("error", VNull)]) in
  In (Called (UserCoursesInsert row) answer) (trace r)
  /\ exists order slug user_id found course,
       In (Called (OrdersFetch (field (genuine "order_1") "razorpay_order_id"))
                  (Fulfilled order)) (trace r)
       /\ metadata order = Some (slug, user_id)
       /\ In (Called (CoursesBySlug slug) (Fulfilled found)) (trace r)
       /\ get found "data" = inl course
       /\ (exists courseError,
             get found "error" = inl courseError
             /\ truthy courseError = false)
       /\ truthy course = true
       /\ truthy user_id = true
       /\ row = grant_row user_id course.
Proof.
  intros r row answer.
  assert (H : In (Called (UserCoursesInsert row) answer) (trace r))
    by (vm_compute; repeat first [left; reflexivity | right]).
  exact (conj H (grant_row_provenance Number_toString KEY_SECRET world services
                   (genuine "order_1") shop row answer H)).
Defined.

Lemma course_not_found_grants_nothing_witness :
  let r := run services
             (V2.verify_payment Number_toString KEY_SECRET (genuine "order_3"))
             shop in
  let courseError := VObj [("code", VStr "PGRST116")] in
  let found := VObj [("data", VNull); ("error", courseError)] in
  (In (Called (CoursesBySlug (VStr "ghost")) (Fulfilled found)) (trace r)
   /\ get found "data" = inl VNull
   /\ get found "error" = inl courseError
   /\ truthy courseError || negb (truthy VNull) = true)
  /\ result r = Returned (course_not_found (VStr "ghost"))
  /\ existsb is_insert (calls (trace r)) = false
  /\ In (Printed Error [VStr "Course not found:"; courseError]) (trace r).
Proof.
  intros r courseError found.
  assert (H : In (Called (CoursesBySlug (VStr "ghost")) (Fulfilled found))
                (trace r))
    by (vm_compute; repeat first [left; reflexivity | right]).
  refine (conj (conj H (conj eq_refl (conj eq_refl eq_refl))) _).
  exact (course_not_found_grants_nothing Number_toString KEY_SECRET world
           services (genuine "order_3") shop (VStr "ghost") found VNull
           courseError H eq_refl eq_refl eq_refl).
Defined.

Lemma upstream_rejection_ends_request_witness :
  let r := run services
             (V2.verify_payment Number_toString KEY_SECRET (genuine "order_9"))
             shop in
  let reason := VObj [("error", VObj [("code", VStr "BAD_REQUEST_ERROR")])] in
  In (Called (OrdersFetch (VStr "order_9")) (Rejected reason)) (trace r)
  /\ result r = Returned (failure 500 "Server error verifying payment")
  /\ In (caught_line "Verify error:" reason) (trace r)
  /\ hd_error (rev (calls (trace r))) = Some (OrdersFetch (VStr "order_9")).
Proof.
  intros r reason.
  assert (H : In (Called (OrdersFetch (VStr "order_9")) (Rejected reason))
                (trace r))
    by (vm_compute; repeat first [left; reflexivity | right]).
  exact (conj H (upstream_rejection_ends_request Number_toString KEY_SECRET
                   world services (genuine "order_9") shop _ reason H)).
Defined.

Lemma success_means_granted_witness :
  let r := run services
             (V2.verify_payment Number_toString KEY_SECRET (genuine "order_1"))
             shop in
  result r = Returned success
  /\ exists row inserted ucError,
       In (Called (UserCoursesInsert row) (Fulfilled inserted)) (trace r)
       /\ get inserted "error" = inl ucError
       /\ (truthy ucError = false \/ get_opt ucError "code" = VStr "23505").
Proof.
  intros r.
  assert (H : result r = Returned success) by (vm_compute; reflexivity).
  exact (conj H (success_means_granted Number_toString KEY_SECRET world
                   services (genuine "order_1") shop H)).
Defined.

Lemma fulfilled_insert_means_success_witness :
  let r := run services
             (V2.verify_payment Number_toString KEY_SECRET (genuine "order_1"))
             shop in
  let row := VObj [("user_id", VStr "u123"); ("course_id", int 7)] in
  let inserted := VObj [("data", VNull); ("error", VNull)] in
  (In (Called (UserCoursesInsert row) (Fulfilled inserted)) (trace r)
   /\ get inserted "error" = inl VNull
   /\ truthy VNull = false)
  /\ result r = Returned success.
Proof.
  intros r row inserted.
  assert (H : In (Called (UserCoursesInsert row) (Fulfilled inserted))
                (trace r))
    by (vm_compute; repeat first [left; reflexivity | right]).
  refine (conj (conj H (conj eq_refl eq_refl)) _).
  exact (fulfilled_insert_means_success Number_toString KEY_SECRET world
           services (genuine "order_1") shop row inserted VNull H
           eq_refl eq_refl).
Defined.

Lemma mismatch_prints_expected_signature_witness :
  let signature := field forged "razorpay_signature" in
  let expected := Crypto.hmac_sha256_hex secret "order_1|pay_abc" in
  signature <> VStr expected
  /\ trace (run services
              (V1.verify_payment Number_toString KEY_SECRET forged) shop)
     = [mismatch_line expected signature]
  /\ trace (run services
              (V2.verify_payment Number_toString KEY_SECRET forged) shop)
     = [mismatch_line expected signature].
Proof.
  intros signature expected.
  assert (H : signature <> VStr expected) by (vm_compute; discriminate).
  exact (conj H (mismatch_prints_expected_signature Number_toString KEY_SECRET
                   world services forged shop secret "order_1|pay_abc"
                   eq_refl eq_refl eq_refl eq_refl eq_refl H)).
Defined.

Lemma unset_secret_fails_every_confirmation_witness :
  let r1 := run services
              (V1.verify_payment Number_toString None (genuine "order_1"))
              shop in
  let r2 := run services
              (V2.verify_payment Number_toString None (genuine "order_1"))
              shop in
  (result r1 = Returned (failure 500 "Server error verifying payment")
   /\ calls (trace r1) = [] /\ final r1 = shop)
  /\ (result r2 = Returned (failure 500 "Server error verifying payment")
      /\ calls (trace r2) = [] /\ final r2 = shop).
Proof.
  exact (unset_secret_fails_every_confirmation Number_toString None world
           services (genuine "order_1") shop "order_1|pay_abc"
           eq_refl eq_refl eq_refl eq_refl eq_refl).
Defined.

Lemma v1_verify_payment_is_local_witness :
  let r := run services
             (V1.verify_payment Number_toString KEY_SECRET (genuine "order_1"))
             shop in
  authentic Number_toString KEY_SECRET (genuine "order_1")
  /\ calls (trace r) = []
  /\ final r = shop
  /\ result r = Returned success.
Proof.
  intros r.
  pose proof (v1_verify_payment_is_local Number_toString KEY_SECRET world
                services (genuine "order_1") shop) as (Hc & Hf & Hiff).
  exact (conj genuine_is_authentic
           (conj Hc (conj Hf (proj2 Hiff genuine_is_authentic)))).
Defined.

Lemma create_order_gateway_failure_witness :
  let r1 := run gateway_down (V1.create_order Number_toString purchase)
              empty_shop in
  let r2 := run gateway_down (V2.create_order Number_toString purchase)
              empty_shop in
  let reason := VObj [("statusCode", int 502);
                      ("error", VObj [("code", VStr "GATEWAY_ERROR")])] in
  (exists options,
     In (Called (OrdersCreate options) (Rejected reason)) (trace r1)
     /\ result r1 = Returned (error_only 500 "Unable to create order")
     /\ In (caught_line "Create order error:" reason) (trace r1))
  /\ (exists options,
        In (Called (OrdersCreate options) (Rejected reason)) (trace r2)
        /\ result r2 = Returned (error_only 500 "Unable to create order")
        /\ In (caught_line "Create order error:" reason) (trace r2)).
Proof.
  intros r1 r2 reason. split.
  - eexists.
    assert (H : In (Called (OrdersCreate _) (Rejected reason)) (trace r1))
      by (vm_compute; left; reflexivity).
    exact (conj H (proj1 (create_order_gateway_failure Number_toString world
                            gateway_down purchase empty_shop _ reason) H)).
  - eexists.
    assert (H : In (Called (OrdersCreate _) (Rejected reason)) (trace r2))
      by (vm_compute; right; left; reflexivity).
    exact (conj H (proj2 (create_order_gateway_failure Number_toString world
                            gateway_down purchase empty_shop _ reason) H)).
Defined.

Lemma create_order_calls_gateway_once_witness :
  let complete := run services (V2.create_order Number_toString purchase)
                    empty_shop in
  let incomplete :=
    run services (V2.create_order Number_toString incomplete_purchase)
      empty_shop in
  (truthy (field purchase "amount") && truthy (field purchase "course_slug")
   && truthy (field purchase "user_id") = true
   /\ exists options, calls (trace complete) = [OrdersCreate options])
  /\ (truthy (field incomplete_purchase "amount")
      && truthy (field incomplete_purchase "course_slug")
      && truthy (field incomplete_purchase "user_id") = false
      /\ calls (trace incomplete) = []).
Proof.
  intros complete incomplete. split.
  - refine (conj eq_refl _).
    exact (proj1 (create_order_calls_gateway_once Number_toString world
                    services purchase empty_shop) eq_refl).
  - refine (conj eq_refl _).
    exact (proj2 (create_order_calls_gateway_once Number_toString world
                    services incomplete_purchase empty_shop) eq_refl).
Defined.

Lemma create_order_options_sent_witness :
  let plain := run services (V2.create_order Number_toString campaign_purchase)
                 empty_shop in
  let dollars := run services (V2.create_order Number_toString dollar_purchase)
                   empty_shop in
  (exists options answer,
     In (Called (OrdersCreate options) answer) (trace plain)
     /\ field campaign_purchase "currency" = VUndefined
     /\ truthy (field campaign_purchase "receipt") = false
     /\ get options "amount" = inl (int 50000)
     /\ get options "currency" = inl (VStr "INR")
     /\ exists t,
          clock_reads (trace plain) = [t]
          /\ get options "receipt"
             = inl (VStr ("order_rcpt_" ++ Number_toString t)))
  /\ (exists options answer,
        In (Called (OrdersCreate options) answer) (trace dollars)
        /\ field dollar_purchase "currency" <> VUndefined
        /\ truthy (field dollar_purchase "receipt") = true
        /\ get options "currency" = inl (VStr "USD")
        /\ get options "receipt" = inl (VStr "rcpt_9")
        /\ clock_reads (trace dollars) = []).
Proof.
  intros plain dollars. split.
  - eexists _, _.
    assert (H : In (Called (OrdersCreate _) _) (trace plain))
      by (vm_compute; right; right; left; reflexivity).
    destruct (create_order_options_sent Number_toString world services
                campaign_purchase empty_shop _ _ H)
      as (Ha & Hinr & _ & _ & Hclock).
    exact (conj H (conj eq_refl (conj eq_refl
             (conj Ha (conj (Hinr eq_refl) (Hclock eq_refl)))))).
  - eexists _, _.
    assert (H : In (Called (OrdersCreate _) _) (trace dollars))
      by (vm_compute; right; left; reflexivity).
    assert (Hc : field dollar_purchase "currency" <> VUndefined)
      by discriminate.
    destruct (create_order_options_sent Number_toString world services
                dollar_purchase empty_shop _ _ H)
      as (_ & _ & Hcur & Hrec & _).
    exact (conj H (conj Hc (conj eq_refl
             (conj (Hcur Hc) (conj (proj1 (Hrec eq_refl))
                                   (proj2 (Hrec eq_refl))))))).
Defined.

Lemma create_order_keeps_caller_notes_witness :
  let r1 := run services (V1.create_order Number_toString campaign_purchase)
              empty_shop in
  let r2 := run services (V2.create_order Number_toString campaign_purchase)
              empty_shop in
  let props := [("campaign", VStr "diwali");
                ("course_slug", VStr "free-course")] in
  (exists options answer,
     In (Called (OrdersCreate options) answer) (trace r2)
     /\ field campaign_purchase "notes" = VObj props
     /\ NoDup (map fst props)
     /\ get_opt (get_opt options "notes") "campaign" = VStr "diwali")
  /\ (exists options answer,
        In (Called (OrdersCreate options) answer) (trace r1)
        /\ truthy (field campaign_purchase "notes") = true
        /\ get_opt options "notes" = VObj props).
Proof.
  intros r1 r2 props.
  assert (Hnd : NoDup (map fst props)).
  { repeat constructor; cbn; intuition discriminate. }
  split.
  - eexists _, _.
    assert (H : In (Called (OrdersCreate _) _) (trace r2))
      by (vm_compute; right; right; left; reflexivity).
    refine (conj H (conj eq_refl (conj Hnd _))).
    exact (proj1 (create_order_keeps_caller_notes Number_toString world
                    services campaign_purchase empty_shop _ _) H props
             "campaign" eq_refl Hnd
             ltac:(discriminate) ltac:(discriminate)).
  - eexists _, _.
    assert (H : In (Called (OrdersCreate _) _) (trace r1))
      by (vm_compute; right; left; reflexivity).
    refine (conj H (conj eq_refl _)).
    exact (proj2 (create_order_keeps_caller_notes Number_toString world
                    services campaign_purchase empty_shop _ _) H eq_refl).
Defined.

Lemma quiet_start_settles_by_signature_witness :
  let r := run services
             (V2.verify_payment Number_toString
                (Startup.KEY_SECRET production) forged) shop in
  Startup.warnings_v2 production = []
  /\ (exists key, Startup.KEY_SECRET production = Some key /\ key <> "")
  /\ (accepted (trace r) = true
      \/ result r = Returned (failure 400 "Invalid signature")).
Proof.
  intros r.
  assert (Hq : Startup.warnings_v2 production = []) by reflexivity.
  pose proof (quiet_start_settles_by_signature production) as [Hkey Hsettle].
  refine (conj Hq (conj (Hkey _) _)).
  - rewrite Hq. intros [].
  - exact (Hsettle Hq Number_toString world services forged shop
             "order_1|pay_abc" eq_refl eq_refl eq_refl eq_refl).
Defined.

Lemma purchase_round_trip_witness :
  let created := run services (V2.create_order Number_toString purchase)
                   empty_shop in
  let verified :=
    run services (V2.verify_payment Number_toString KEY_SECRET
                    (genuine "order_1")) (final created) in
  (lookup "order_1" (orders empty_shop) = None
   /\ filter (has_slug (VStr "intro-ts")) (courses empty_shop) = [intro_ts]
   /\ field (genuine "order_1") "razorpay_order_id" = VStr "order_1")
  /\ (exists order,
        result created = Returned {| status := 200; body := order |}
        /\ metadata order = Some (VStr "intro-ts", VStr "u123"))
  /\ result verified = Returned success
  /\ grants (VStr "u123") (get_opt intro_ts "id") (final verified)
     = Nat.max 1 (grants (VStr "u123") (get_opt intro_ts "id") empty_shop).
Proof.
  intros created verified.
  refine (conj (conj eq_refl (conj eq_refl eq_refl)) _).
  exact (purchase_round_trip Number_toString KEY_SECRET purchase
           (genuine "order_1") empty_shop secret "order_1|pay_abc" intro_ts
           eq_refl eq_refl eq_refl eq_refl eq_refl eq_refl eq_refl eq_refl
           eq_refl eq_refl eq_refl eq_refl).
Defined.

(* ------------------------------------------------------------------------- *)
(** ** Requests without a parsed body *)

Lemma run_try_catch_again {W A : Type} (E : environment W) (p : prog A)
  (h h' : value -> prog A) :
  (forall err, try_catch (h err) h' = h err) ->
  forall w, run E (try_catch (try_catch p h) h') w = run E (try_catch p h) w.
Proof.
  intros Hh. induction p as [a | err | s args k IH | k IH | c k IH];
    intros w; cbn.
  - reflexivity.
  - now rewrite Hh.
  - now rewrite IH.
  - destruct (now E w) as [t w']. now rewrite IH.
  - destruct (upstream E c w) as [r w']. now rewrite IH.
Qed.

Lemma nullish_fields (v : value) : nullish v = true -> fields v = [].
Proof. destruct v; cbn; intros H; try discriminate H; reflexivity. Qed.

Section Requests.

Variable Number_toString : spec_float -> string.
Variable KEY_SECRET : option string.
Variable W : Type.
Variable E : environment W.

(** On a body that is neither [undefined] nor [null] the routes are the
    handlers on its fields. *)
Lemma post_verify_payment_parsed (req_body : value) (w : W) :
  nullish req_body = false ->
  run E (V2.post_verify_payment Number_toString KEY_SECRET req_body) w
  = run E (V2.verify_payment Number_toString KEY_SECRET (fields req_body)) w.
Proof.
  intros Hn. unfold V2.post_verify_payment, destructure.
  destruct req_body; try discriminate Hn; cbn [eval bind];
    unfold V2.verify_payment; apply run_try_catch_again; reflexivity.
Qed.

Lemma post_create_order_parsed (req_body : value) (w : W) :
  nullish req_body = false ->
  run E (V2.post_create_order Number_toString req_body) w
  = run E (V2.create_order Number_toString (fields req_body)) w.
Proof.
  intros Hn. unfold V2.post_create_order, destructure.
  destruct req_body; try discriminate Hn; cbn [eval bind];
    unfold V2.create_order; apply run_try_catch_again; reflexivity.
Qed.

Lemma post_create_order_v1_parsed (req_body : value) (w : W) :
  nullish req_body = false ->
  run E (V1.post_create_order Number_toString req_body) w
  = run E (V1.create_order Number_toString (fields req_body)) w.
Proof.
  intros Hn. unfold V1.post_create_order, destructure.
  destruct req_body; try discriminate Hn; cbn [eval bind];
    unfold V1.create_order; apply run_try_catch_again; reflexivity.
Qed.

(** C3. A verify-payment request whose body was parsed and lacks one of its
    three fields is answered 400 [{success: false, message}]; nothing is
    printed, no upstream call is made and the world is left as it was.  A
    request that reaches the handler without a parsed body ([req.body] is
    [undefined] or [null]) lacks all three; there the destructuring throws
    and the answer is 500 [{success: false, message}], again without an
    upstream call. *)
Theorem verify_payment_missing_field_any_body (req_body : value) (w : W) :
  let r := run E (V2.post_verify_payment Number_toString KEY_SECRET req_body)
             w in
  (nullish req_body = false ->
   absent (fields req_body) "razorpay_order_id"
   \/ absent (fields req_body) "razorpay_payment_id"
   \/ absent (fields req_body) "razorpay_signature" ->
   result r = Returned (failure 400 "Missing payment details")
   /\ trace r = []
   /\ calls (trace r) = []
   /\ final r = w)
  /\ (nullish req_body = true ->
      absent (fields req_body) "razorpay_order_id"
      /\ absent (fields req_body) "razorpay_payment_id"
      /\ absent (fields req_body) "razorpay_signature"
      /\ result r = Returned (failure 500 "Server error verifying payment")
      /\ calls (trace r) = []
      /\ final r = w).
Proof.
  intros r; subst r. split.
  - intros Hn H. rewrite post_verify_payment_parsed by assumption.
    rewrite verify_payment_falsy_field; [repeat split|].
    destruct H as [H | [H | H]]; apply absent_field in H;
      rewrite H, truthy_undefined; rewrite ?andb_false_r; reflexivity.
  - intros Hn. rewrite (nullish_fields req_body Hn).
    destruct req_body; try discriminate Hn; repeat split.
Qed.

Local Opaque concat.

Lemma create_order_v1_reaches_gateway (o : object) (w : W) :
  truthy (field o "amount") = true ->
  exists options,
    calls (trace (run E (V1.create_order Number_toString o) w))
    = [OrdersCreate options].
Proof.
  unfold V1.create_order. intros ->. cbn.
  explore; try (eexists; reflexivity).
  all: rewrite concat_number in *; discriminate.
Qed.

(** C5. A create-order request whose body was parsed and in which amount,
    course_slug or user_id is missing or empty is answered 400 with an
    [{error}] body by the second version, which does not call the gateway.
    The first version checks the amount only: without an amount it answers
    400 and does not call the gateway; with one it calls the gateway,
    whatever course_slug and user_id are.  A request that reaches either
    version without a parsed body is answered 500 [{error}], without a
    gateway call. *)
Theorem create_order_missing_field_any_body (req_body : value) (w : W) :
  let r1 := run E (V1.post_create_order Number_toString req_body) w in
  let r2 := run E (V2.post_create_order Number_toString req_body) w in
  let amount := field (fields req_body) "amount" in
  let course_slug := field (fields req_body) "course_slug" in
  let user_id := field (fields req_body) "user_id" in
  (nullish req_body = false ->
   (missing_or_empty amount \/ missing_or_empty course_slug
    \/ missing_or_empty user_id ->
    result r2
    = Returned (error_only 400 "Amount, course_slug and user_id are required")
    /\ calls (trace r2) = []
    /\ final r2 = w)
   /\ (missing_or_empty amount ->
       result r1 = Returned (error_only 400 "Amount is required")
       /\ calls (trace r1) = []
       /\ final r1 = w)
   /\ (truthy amount = true ->
       exists options, calls (trace r1) = [OrdersCreate options]))
  /\ (nullish req_body = true ->
      (result r1 = Returned (error_only 500 "Unable to create order")
       /\ calls (trace r1) = [] /\ final r1 = w)
      /\ (result r2 = Returned (error_only 500 "Unable to create order")
          /\ calls (trace r2) = [] /\ final r2 = w)).
Proof.
  intros r1 r2 amount course_slug user_id.
  subst r1 r2 amount course_slug user_id. split.
  - intros Hn.
    rewrite post_create_order_parsed, post_create_order_v1_parsed
      by assumption.
    split; [|split].
    + intros H. rewrite create_order_falsy_field; [repeat split|].
      destruct H as [[H | H] | [[H | H] | [H | H]]]; rewrite H; cbn;
        rewrite ?andb_false_r; reflexivity.
    + intros H. rewrite create_order_v1_falsy_amount; [repeat split|].
      destruct H as [H | H]; rewrite H; reflexivity.
    + apply create_order_v1_reaches_gateway.
  - intros Hn. destruct req_body; try discriminate Hn; repeat split.
Qed.

End Requests.

Lemma verify_payment_missing_field_any_body_witness :
  let parsed := VObj [("razorpay_order_id", VStr "order_1");
                      ("razorpay_signature", VStr (signature_of "order_1"))] in
  let r := run services
             (V2.post_verify_payment Number_toString KEY_SECRET parsed) shop in
  let r' := run services
              (V2.post_verify_payment Number_toString KEY_SECRET VUndefined)
              shop in
  (nullish parsed = false
   /\ absent (fields parsed) "razorpay_payment_id"
   /\ result r = Returned (failure 400 "Missing payment details")
   /\ trace r = []
   /\ calls (trace r) = []
   /\ final r = shop)
  /\ (nullish VUndefined = true
      /\ absent (fields VUndefined) "razorpay_order_id"
      /\ absent (fields VUndefined) "razorpay_payment_id"
      /\ absent (fields VUndefined) "razorpay_signature"
      /\ result r'
         = Returned (failure 500 "Server error verifying payment")
      /\ calls (trace r') = []
      /\ final r' = shop).
Proof.
  intros parsed r r'.
  assert (H : absent (fields parsed) "razorpay_payment_id") by reflexivity.
  split.
  - refine (conj eq_refl (conj H _)).
    exact (proj1 (verify_payment_missing_field_any_body Number_toString
                    KEY_SECRET world services parsed shop)
             eq_refl (or_intror (or_introl H))).
  - refine (conj eq_refl _).
    exact (proj2 (verify_payment_missing_field_any_body Number_toString
                    KEY_SECRET world services VUndefined shop) eq_refl).
Defined.

(** A request that reaches verify-payment without a parsed body has none of
    the three fields and is answered 500, not 400. *)
Lemma unparsed_confirmation_is_answered_500 :
  let r := run services
             (V2.post_verify_payment Number_toString KEY_SECRET VUndefined)
             shop in
  absent (fields VUndefined) "razorpay_order_id"
  /\ result r = Returned (failure 500 "Server error verifying payment")
  /\ (forall message, result r <> Returned (failure 400 message)).
Proof.
  intros r. split; [reflexivity|]. split; [reflexivity|].
  intros message H. discriminate H.
Qed.

Lemma create_order_missing_field_any_body_witness :
  let no_user := VObj [("amount", int 50000);
                       ("course_slug", VStr "intro-ts")] in
  let no_amount := VObj [("currency", VStr "INR")] in
  let amount_only := VObj [("amount", int 50000); ("receipt", VStr "r1")] in
  let run1 b := run services (V1.post_create_order Number_toString b)
                  empty_shop in
  let run2 b := run services (V2.post_create_order Number_toString b)
                  empty_shop in
  (nullish no_user = false
   /\ missing_or_empty (field (fields no_user) "user_id")
   /\ result (run2 no_user)
      = Returned (error_only 400
                    "Amount, course_slug and user_id are required")
   /\ calls (trace (run2 no_user)) = []
   /\ final (run2 no_user) = empty_shop)
  /\ (nullish no_amount = false
      /\ missing_or_empty (field (fields no_amount) "amount")
      /\ result (run1 no_amount)
         = Returned (error_only 400 "Amount is required")
      /\ calls (trace (run1 no_amount)) = []
      /\ final (run1 no_amount) = empty_shop)
  /\ (nullish amount_only = false
      /\ truthy (field (fields amount_only) "amount") = true
      /\ exists options,
           calls (trace (run1 amount_only)) = [OrdersCreate options])
  /\ (nullish VUndefined = true
      /\ (result (run1 VUndefined)
          = Returned (error_only 500 "Unable to create order")
          /\ calls (trace (run1 VUndefined)) = []
          /\ final (run1 VUndefined) = empty_shop)
      /\ (result (run2 VUndefined)
          = Returned (error_only 500 "Unable to create order")
          /\ calls (trace (run2 VUndefined)) = []
          /\ final (run2 VUndefined) = empty_shop)).
Proof.
  intros no_user no_amount amount_only run1 run2.
  assert (H2 : missing_or_empty (field (fields no_user) "user_id"))
    by (left; reflexivity).
  assert (H1 : missing_or_empty (field (fields no_amount) "amount"))
    by (left; reflexivity).
  pose proof (create_order_missing_field_any_body Number_toString world
                services) as T.
  refine (conj _ (conj _ (conj _ _))).
  - refine (conj eq_refl (conj H2 _)).
    exact (proj1 (proj1 (T no_user empty_shop) eq_refl)
             (or_intror (or_intror H2))).
  - refine (conj eq_refl (conj H1 _)).
    exact (proj1 (proj2 (proj1 (T no_amount empty_shop) eq_refl)) H1).
  - refine (conj eq_refl (conj eq_refl _)).
    exact (proj2 (proj2 (proj1 (T amount_only empty_shop) eq_refl)) eq_refl).
  - refine (conj eq_refl _).
    exact (proj2 (T VUndefined empty_shop) eq_refl).
Defined.

(** The first version creates the order of a request that has an amount and
    neither course_slug nor user_id, and answers 200; and a request that
    reaches the second version without a parsed body, which lacks the three
    fields, is answered 500, not 400. *)
Lemma create_order_without_slug_or_body :
  let amount_only := VObj [("amount", int 50000); ("receipt", VStr "r1")] in
  let r1 := run services (V1.post_create_order Number_toString amount_only)
              empty_shop in
  let r2 := run services (V2.post_create_order Number_toString VUndefined)
              empty_shop in
  (missing_or_empty (field (fields amount_only) "course_slug")
   /\ missing_or_empty (field (fields amount_only) "user_id")
   /\ (exists order,
         result r1 = Returned {| status := 200; body := order |}
         /\ lookup "order_1" (orders (final r1)) = Some order)
   /\ (forall message, result r1 <> Returned (error_only 400 message)))
  /\ (missing_or_empty (field (fields VUndefined) "amount")
      /\ result r2 = Returned (error_only 500 "Unable to create order")
      /\ (forall message, result r2 <> Returned (error_only 400 message))).
Proof.
  intros amount_only r1 r2. split.
  - split; [left; reflexivity|]. split; [left; reflexivity|]. split.
    + eexists. split; vm_compute; reflexivity.
    + intros message H. vm_compute in H. discriminate H.
  - split; [left; reflexivity|]. split; [reflexivity|].
    intros message H. discriminate H.
Qed.
